(** * News pipeline: a shallow embedding of [airflow_dags_fixed/fetch_news.py]

    The module fetches articles from a search API, turns them into rows,
    writes a Parquet file, uploads it and removes the local copy.  The
    embedding follows the Python text function by function and keeps its
    names.  External collaborators (the Airflow variable store, the HTTP
    client, pandas/pyarrow, the storage client, the clock) are oracles
    gathered in one record; everything the module itself computes is an
    executable definition.  Calls to [logger] have no effect on any result
    and are left out. *)

From Stdlib Require Import ZArith QArith String Ascii.
From stdpp Require Import base option list gmap.

Set Default Proof Using "Type".

(** ** Python strings *)

(** A Python [str] is a sequence of Unicode code points. *)
Abbreviation str := (list N).

(** String literals of the source. *)
Definition lit (s : string) : str := N_of_ascii <$> list_ascii_of_string s.

(** [str.isspace] on one code point: the characters [str.strip()] removes. *)
Definition is_space (c : N) : bool :=
  ((9 <=? c) && (c <=? 13) || (28 <=? c) && (c <=? 32)
   || (c =? 133) || (c =? 160) || (c =? 5760)
   || (8192 <=? c) && (c <=? 8202)
   || (c =? 8232) || (c =? 8233) || (c =? 8239) || (c =? 8287)
   || (c =? 12288))%N.

Fixpoint lstrip (s : str) : str :=
  match s with
  | c :: t => if is_space c then lstrip t else s
  | [] => []
  end.

Definition rstrip (s : str) : str := rev (lstrip (rev s)).

(** [s.strip()] *)
Definition strip (s : str) : str := rstrip (lstrip s).

(** [s.rfind(c)] for a one-character needle, counting indices from [i]:
    the highest index holding [c], or [-1]. *)
Fixpoint rfind_from (c : N) (s : str) (i : Z) : Z :=
  match s with
  | [] => (-1)%Z
  | x :: t =>
      let r := rfind_from c t (i + 1)%Z in
      if (0 <=? r)%Z then r else if (x =? c)%N then i else (-1)%Z
  end.

Definition rfind (c : N) (s : str) : Z := rfind_from c s 0%Z.

(** [s[:n]], with Python's reading of a negative bound. *)
Definition slice_to (s : str) (n : Z) : str :=
  if (0 <=? n)%Z then take (Z.to_nat n) s
  else take (Z.to_nat (Z.of_nat (length s) + n)) s.

Definition period : N := 46%N.

(** ** Python values

    What [response.json()] can hand to the module: the values of the JSON
    data model.  A dict is given by its items in insertion order. *)

Inductive pyfloat :=
  | FNan
  | FInf (negative : bool)
  | FFinite (q : Q).

#[warnings="-register-all"] Inductive pyval :=
  | PNone
  | PBool (b : bool)
  | PInt (z : Z)
  | PFloat (f : pyfloat)
  | PStr (s : str)
  | PList (l : list pyval)
  | PDict (items : list (str * pyval)).

(** Truth value of an object, as [if x:] and [not x] test it. *)
Definition truthy (v : pyval) : bool :=
  match v with
  | PNone => false
  | PBool b => b
  | PInt z => negb (z =? 0)%Z
  | PFloat (FFinite q) => negb (Qeq_bool q 0)
  | PFloat _ => true
  | PStr s => negb (bool_decide (s = []))
  | PList l => match l with [] => false | _ => true end
  | PDict kv => match kv with [] => false | _ => true end
  end.

(** ** Exceptions

    Only subclasses of [Exception] are modelled; each constructor is one
    raise site of the module or one family raised by a collaborator. *)

Inductive exn :=
  | ValueError (msg : str)
  | ApiStatusError (message : pyval)
      (* ValueError(f"API returned error status: {message}") *)
  | AttributeError
  | TypeError
  | HTTPError (status : Z)
  | FileNotCreated (path : str)
      (* Exception(f"File {filename} was not created") *)
  | UploadReportedFailure
      (* Exception("Failed to upload file to GCS") *)
  | FileNotFoundError (path : str)
  | OverflowError
      (* timedelta(days=...) or a date out of datetime.date's range *)
  | External (what : str).
      (* anything raised inside requests, pandas, the storage client or
         the variable store *)

Inductive result (A : Type) :=
  | Ok (a : A)
  | Raise (e : exn).
Arguments Ok {A} a.
Arguments Raise {A} e.

Definition rbind {A B} (r : result A) (k : A → result B) : result B :=
  match r with
  | Ok a => k a
  | Raise e => Raise e
  end.

Declare Scope result_scope.
Delimit Scope result_scope with result.
Notation "'let!' x ':=' r 'in' k" := (rbind r (fun x => k))
  (at level 10, x name, r at level 100, k at level 200) : result_scope.

(** ** clean_article_content *)

(** [content.strip()]: only a [str] has the method. *)
Definition py_strip (v : pyval) : result str :=
  match v with
  | PStr s => Ok (strip s)
  | _ => Raise AttributeError
  end.

Definition clean_article_content (content : pyval) : result str :=
  if negb (truthy content) then Ok []
  else
    (let! cleaned_content := py_strip content in
     if (200 <? length cleaned_content)%nat then
       let last_period_index := rfind period cleaned_content in
       if (100 <? last_period_index)%Z then
         Ok (slice_to cleaned_content (last_period_index + 1))
       else
         Ok (slice_to cleaned_content 199)
     else Ok cleaned_content)%result.

(** ** Dictionaries, iteration, comparison *)

Fixpoint dict_lookup (key : str) (items : list (str * pyval)) : option pyval :=
  match items with
  | [] => None
  | (k, v) :: rest =>
      if bool_decide (k = key) then Some v else dict_lookup key rest
  end.

(** [obj.get(key, default)]: only a dict has the method. *)
Definition py_get (obj : pyval) (key : str) (default : pyval) : result pyval :=
  match obj with
  | PDict items => Ok (from_option id default (dict_lookup key items))
  | _ => Raise AttributeError
  end.

(** [x != 'literal'] *)
Definition py_ne_str (x : pyval) (s : str) : bool :=
  match x with
  | PStr t => negb (bool_decide (t = s))
  | _ => true
  end.

(** What [list.extend(x)] appends: the elements of a list, the characters
    of a str, the keys of a dict; other values are not iterable. *)
Definition py_iter (x : pyval) : result (list pyval) :=
  match x with
  | PList l => Ok l
  | PStr s => Ok ((fun c => PStr [c]) <$> s)
  | PDict items => Ok ((fun kv => PStr (fst kv)) <$> items)
  | _ => Raise TypeError
  end.

(** [len(x)] *)
Definition py_len (x : pyval) : result nat :=
  match x with
  | PList l => Ok (length l)
  | PStr s => Ok (length s)
  | PDict items => Ok (length items)
  | _ => Raise TypeError
  end.

(** [n >= x] for an int [n]: defined against numbers only. *)
Definition py_int_ge (n : Z) (x : pyval) : result bool :=
  match x with
  | PInt z => Ok (z <=? n)%Z
  | PBool b => Ok (Z.b2z b <=? n)%Z
  | PFloat FNan => Ok false
  | PFloat (FInf negative) => Ok negative
  | PFloat (FFinite q) => Ok (Qle_bool q (inject_Z n))
  | _ => Raise TypeError
  end.

(** ** Rows *)

(** One row of the DataFrame; the columns in the order of the source. *)
Record news_row := {
  newsTitle : str;
  timestamp : pyval;
  url_source : pyval;
  content : str;
  source : pyval;
  author : str;
  urlToImage : pyval;
  processed_at : str;
}.

Abbreviation dataframe := (list news_row).

(** The fields read in lines 244-253, before the row is built. *)
Record article_fields := {
  news_title : str;
  f_timestamp : pyval;
  f_url_source : pyval;
  source_name : pyval;
  f_author : str;
  url_to_image : pyval;
  cleaned_content : str;
}.

Definition empty_str : pyval := PStr [].

Definition extract_fields (article : pyval) : result article_fields :=
  (let! title := py_get article (lit "title") empty_str in
   let! news_title := py_strip title in
   let! timestamp := py_get article (lit "publishedAt") empty_str in
   let! url_source := py_get article (lit "url") empty_str in
   let! source_name :=
     (let! src := py_get article (lit "source") PNone in
      if truthy src then
        let! src' := py_get article (lit "source") (PDict []) in
        py_get src' (lit "name") empty_str
      else Ok empty_str) in
   let! author :=
     (let! a := py_get article (lit "author") PNone in
      if truthy a then
        let! a' := py_get article (lit "author") empty_str in
        py_strip a'
      else Ok []) in
   let! url_to_image := py_get article (lit "urlToImage") empty_str in
   let! raw_content := py_get article (lit "content") empty_str in
   let! cleaned_content := clean_article_content raw_content in
   Ok {| news_title := news_title; f_timestamp := timestamp;
         f_url_source := url_source; source_name := source_name;
         f_author := author; url_to_image := url_to_image;
         cleaned_content := cleaned_content |})%result.

Definition new_row (f : article_fields) (now_iso : str) : news_row :=
  {| newsTitle := news_title f; timestamp := f_timestamp f;
     url_source := f_url_source f; content := cleaned_content f;
     source := source_name f; author := f_author f;
     urlToImage := url_to_image f; processed_at := now_iso |}.

(** ** The world outside the module *)

(** A reading of the clock, with the renderings the module asks for. *)
Record instant := {
  ordinal : Z;              (* the calendar day, as date.toordinal() *)
  isoformat : str;          (* datetime.isoformat() *)
  strftime_compact : str;   (* datetime.strftime('%Y%m%d_%H%M%S') *)
}.

(** [base_params]; the two dates stand for their [isoformat()] strings. *)
Record base_request := {
  param_q : str;
  param_from : Z;
  param_to : Z;
  param_sortBy : str;
  param_apiKey : str;
  param_language : str;
  param_pageSize : Z;
}.

(** [params]: a copy of [base_params] with the page number added. *)
Record request := {
  base : base_request;
  param_page : Z;
}.

Inductive http_reply :=
  | NoReply (e : exn)                          (* requests.get raised *)
  | Reply (status_code : Z) (json : result pyval).
      (* a response, and what response.json() gives for its body *)

(** What [df.to_parquet] does.  The content of a file is taken to be the
    rows it holds; a call that raises may already have created or
    truncated the target, which then holds the rows [left] (none for an
    empty file). *)
Inductive parquet_outcome :=
  | Written            (* the file is there afterwards *)
  | NothingWritten     (* the call returned without creating the file *)
  | WriteFailed (e : exn) (left : option dataframe).

(** The collaborators, as oracles.  [Variable_get] answers [Ok None] for a
    variable whose value is None. *)
Record env := {
  Variable_get : str → result (option str);
  requests_get : request → http_reply;
  os_makedirs : str → option exn;
  to_parquet : dataframe → str → parquet_outcome;
  storage_Client : option exn;
  upload_from_filename : str → str → str → option exn;
  clock : nat → instant;
}.

(** Calls that leave the process, in the order they are made. *)
Inductive event :=
  | EvVariableGet (name : str)
  | EvHttpGet (r : request)
  | EvMakedirs (dir : str)
  | EvToParquet (path : str)
  | EvStorageClient
  | EvUpload (bucket blob file : str)
  | EvRemove (path : str).

Record world := {
  fs : gmap str dataframe;   (* the regular files and their contents;
                                directories are not kept track of *)
  ticks : nat;               (* clock readings taken so far *)
  trace : list event;
}.

Definition log_event (e : event) (w : world) : world :=
  {| fs := fs w; ticks := ticks w; trace := trace w ++ [e] |}.

Definition set_fs (f : gmap str dataframe) (w : world) : world :=
  {| fs := f; ticks := ticks w; trace := trace w |}.

(** ** Computations

    A computation runs from a world; [None] means that a loop was cut off
    by its fuel, otherwise it returns or raises and leaves a world. *)

Definition M (A : Type) : Type := world → option (result A * world).

Definition ret {A} (a : A) : M A := fun w => Some (Ok a, w).
Definition raise {A} (e : exn) : M A := fun w => Some (Raise e, w).

Definition bind {A B} (m : M A) (k : A → M B) : M B :=
  fun w =>
    match m w with
    | Some (Ok a, w') => k a w'
    | Some (Raise e, w') => Some (Raise e, w')
    | None => None
    end.

(** [try: body  except Exception as e: handler] *)
Definition try_except {A} (body : M A) (handler : exn → M A) : M A :=
  fun w =>
    match body w with
    | Some (Raise e, w') => handler e w'
    | r => r
    end.

Definition lift {A} (r : result A) : M A :=
  match r with
  | Ok a => ret a
  | Raise e => raise e
  end.

Declare Scope io_scope.
Delimit Scope io_scope with io.
Bind Scope io_scope with M.
Notation "'let!' x ':=' m 'in' k" := (bind m (fun x => k))
  (at level 10, x name, m at level 100, k at level 200) : io_scope.
Notation "m ';;' k" := (bind m (fun _ => k))
  (at level 100, k at level 200, right associativity) : io_scope.

(** How one pass through a loop body ends. *)
Inductive control (S : Type) :=
  | Break (s : S)
  | Continue (s : S).
Arguments Break {S} s.
Arguments Continue {S} s.

(** [while True: body] *)
Fixpoint while_true {S} (fuel : nat) (body : S → M (control S)) (s : S)
  : M S :=
  fun w =>
    match fuel with
    | O => None
    | Datatypes.S fuel' =>
        match body s w with
        | Some (Ok (Break s'), w') => Some (Ok s', w')
        | Some (Ok (Continue s'), w') => while_true fuel' body s' w'
        | Some (Raise e, w') => Some (Raise e, w')
        | None => None
        end
    end.

Section Pipeline.

Variable E : env.

(** *** Primitive calls *)

Definition call_Variable_get (name : str) : M (option str) :=
  fun w => lift (Variable_get E name) (log_event (EvVariableGet name) w).

Definition datetime_now : M instant :=
  fun w =>
    Some (Ok (clock E (ticks w)),
          {| fs := fs w; ticks := Datatypes.S (ticks w); trace := trace w |}).

(** [date.today()] *)
Definition date_today : M Z :=
  (let! t := datetime_now in ret (ordinal t))%io.

Definition call_requests_get (params : request) : M http_reply :=
  fun w =>
    let w' := log_event (EvHttpGet params) w in
    match requests_get E params with
    | NoReply e => Some (Raise e, w')
    | r => Some (Ok r, w')
    end.

(** [response.raise_for_status()] *)
Definition raise_for_status (response : http_reply) : M unit :=
  match response with
  | Reply code _ =>
      if ((400 <=? code) && (code <? 600))%Z then raise (HTTPError code)
      else ret tt
  | NoReply e => raise e
  end.

(** [response.json()] *)
Definition response_json (response : http_reply) : M pyval :=
  match response with
  | Reply _ body => lift body
  | NoReply e => raise e
  end.

Definition call_os_makedirs (dir : str) : M unit :=
  fun w =>
    let w' := log_event (EvMakedirs dir) w in
    match os_makedirs E dir with
    | Some e => Some (Raise e, w')
    | None => Some (Ok tt, w')
    end.

(** [df.to_parquet(filename, index=False, engine='pyarrow')] *)
Definition call_to_parquet (df : dataframe) (filename : str) : M unit :=
  fun w =>
    let w' := log_event (EvToParquet filename) w in
    match to_parquet E df filename with
    | Written => Some (Ok tt, set_fs (<[filename := df]> (fs w')) w')
    | NothingWritten => Some (Ok tt, w')
    | WriteFailed e None => Some (Raise e, w')
    | WriteFailed e (Some rows) =>
        Some (Raise e, set_fs (<[filename := rows]> (fs w')) w')
    end.

(** [os.path.exists(path)], for a path that names no directory: the
    file system kept here holds regular files only. *)
Definition os_path_exists (path : str) : M bool :=
  fun w => Some (Ok (bool_decide (is_Some (fs w !! path))), w).

(** [os.remove(path)] *)
Definition os_remove (path : str) : M unit :=
  fun w =>
    let w' := log_event (EvRemove path) w in
    match fs w !! path with
    | Some _ => Some (Ok tt, set_fs (delete path (fs w')) w')
    | None => Some (Raise (FileNotFoundError path), w')
    end.

Definition call_storage_Client : M unit :=
  fun w =>
    let w' := log_event EvStorageClient w in
    match storage_Client E with
    | Some e => Some (Raise e, w')
    | None => Some (Ok tt, w')
    end.

Definition call_upload_from_filename (bucket blob file : str) : M unit :=
  fun w =>
    let w' := log_event (EvUpload bucket blob file) w in
    match upload_from_filename E bucket blob file with
    | Some e => Some (Raise e, w')
    | None => Some (Ok tt, w')
    end.

(** *** upload_to_gcs *)

Definition upload_to_gcs (bucket_name destination_blob_name source_file_name
    : str) : M bool :=
  try_except
    (call_storage_Client ;;
     call_upload_from_filename bucket_name destination_blob_name
       source_file_name ;;
     ret true)%io
    (fun e => raise e).

(** *** get_api_key_from_airflow *)

Definition msg_key_empty : str :=
  lit "NEWS_API_KEY variable is empty or not set in Airflow".
Definition msg_key_not_found : str :=
  lit "API key not found in Airflow Variables or environment variables".

Definition get_api_key_from_airflow : M str :=
  try_except
    (let! api_key := call_Variable_get (lit "NEWS_API_KEY") in
     match api_key with
     | None => raise (ValueError msg_key_empty)
     | Some key =>
         if bool_decide (key = []) || bool_decide (strip key = [])
         then raise (ValueError msg_key_empty)
         else ret (strip key)
     end)%io
    (fun e => raise (ValueError msg_key_not_found)).

(** *** fetch_news_from_api *)

(** [datetime.date] holds the days from 0001-01-01 to 9999-12-31, by
    ordinal. *)
Definition date_min_ordinal : Z := 1.
Definition date_max_ordinal : Z := 3652059.

(** The largest magnitude [timedelta(days=...)] accepts. *)
Definition timedelta_max_days : Z := 999999999.

(** [today - timedelta(days=days_back)]: the timedelta must be
    representable and the resulting day must be a date. *)
Definition date_minus_days (today days_back : Z) : result Z :=
  if (timedelta_max_days <? Z.abs days_back)%Z then Raise OverflowError
  else
    let day := (today - days_back)%Z in
    if ((date_min_ordinal <=? day) && (day <=? date_max_ordinal))%Z
    then Ok day
    else Raise OverflowError.

(** The local variables the loop updates. *)
Record fetch_state := {
  all_articles : list pyval;
  page : Z;
  total_results : pyval;
}.

Definition with_page (base_params : base_request) (page : Z) : request :=
  {| base := base_params; param_page := page |}.

(** One pass through the body of [while True] (lines 150-200).  The pass
    that reaches the end of the body leaves through the [break] of line
    193; the increment of [page] after it is commented out. *)
Definition fetch_page (base_params : base_request) (st : fetch_state)
  : M (control fetch_state) :=
  (let params := with_page base_params (page st) in
   let! response := call_requests_get params in
   raise_for_status response ;;
   let! data := response_json response in
   let! status := lift (py_get data (lit "status") PNone) in
   if py_ne_str status (lit "ok") then
     let! message :=
       lift (py_get data (lit "message") (PStr (lit "Unknown error"))) in
     raise (ApiStatusError message)
   else
     let! articles := lift (py_get data (lit "articles") (PList [])) in
     if negb (truthy articles) then ret (Break st)
     else
       let! items := lift (py_iter articles) in
       let all_articles' := all_articles st ++ items in
       let! total_results' :=
         (if (page st =? 1)%Z
          then lift (py_get data (lit "totalResults") (PInt 0))
          else ret (total_results st)) in
       let st' := {| all_articles := all_articles'; page := page st;
                     total_results := total_results' |} in
       let! fetched_all :=
         lift (py_int_ge (Z.of_nat (length all_articles')) total_results') in
       if fetched_all then ret (Break st')
       else
         let! n := lift (py_len articles) in
         if (Z.of_nat n <? param_pageSize base_params)%Z then ret (Break st')
         else ret (Break st'))%io.

(** The dict the function returns. *)
Record fetch_result := {
  status : str;
  totalResults : nat;
  articles : list pyval;
}.

Definition fetch_news_from_api (fuel : nat) (api_key search_query : str)
    (days_back : Z) : M fetch_result :=
  try_except
    (let! today := date_today in
     let! start_date := lift (date_minus_days today days_back) in
     let base_params :=
       {| param_q := search_query; param_from := start_date;
          param_to := today; param_sortBy := lit "popularity";
          param_apiKey := api_key; param_language := lit "en";
          param_pageSize := 100 |} in
     let! st := while_true fuel (fetch_page base_params)
                  {| all_articles := []; page := 1; total_results := PInt 0 |} in
     ret {| status := lit "ok"; totalResults := length (all_articles st);
            articles := all_articles st |})%io
    (fun e => raise e).

(** *** process_articles_to_dataframe *)

(** The body of the [try] of lines 242-269: read the fields, build the row
    with its own clock reading, append it. *)
Definition append_article (df : dataframe) (article : pyval) : M dataframe :=
  (let! f := lift (extract_fields article) in
   let! now := datetime_now in
   ret (df ++ [new_row f (isoformat now)]))%io.

(** [for article in articles: try: ... except Exception: continue] *)
Fixpoint process_loop (articles : list pyval) (df : dataframe) : M dataframe :=
  match articles with
  | [] => ret df
  | article :: rest =>
      (let! df' := try_except (append_article df article) (fun e => ret df) in
       process_loop rest df')%io
  end.

Definition process_articles_to_dataframe (articles : list pyval)
  : M dataframe :=
  process_loop articles [].

(** [df.empty] *)
Definition df_empty (df : dataframe) : bool :=
  match df with [] => true | _ => false end.

(** *** save_dataframe_to_parquet *)

Definition slash : N := 47%N.

Fixpoint all_char (c : N) (s : str) : bool :=
  match s with
  | [] => true
  | x :: t => (x =? c)%N && all_char c t
  end.

Fixpoint lstrip_char (c : N) (s : str) : str :=
  match s with
  | x :: t => if (x =? c)%N then lstrip_char c t else s
  | [] => []
  end.

(** [s.rstrip(c)] *)
Definition rstrip_char (c : N) (s : str) : str := rev (lstrip_char c (rev s)).

(** [os.path.dirname] (posixpath) *)
Definition os_path_dirname (p : str) : str :=
  let i := (rfind slash p + 1)%Z in
  let head := slice_to p i in
  if negb (bool_decide (head = [])) && negb (all_char slash head)
  then rstrip_char slash head
  else head.

(** [os.path.getsize] is read for the log line only and is left out. *)
Definition save_dataframe_to_parquet (df : dataframe) (filename : str)
  : M str :=
  try_except
    (let dir := os_path_dirname filename in
     call_os_makedirs (if bool_decide (dir = []) then lit "." else dir) ;;
     call_to_parquet df filename ;;
     let! created := os_path_exists filename in
     if created then ret filename
     else raise (FileNotCreated filename))%io
    (fun e => raise e).

(** *** fetch_news_data *)

Definition bucket_name : str := lit "snowflake-projects-test-gds".

Definition fetch_news_data (fuel : nat) (search_query : str) (days_back : Z)
  : M (option str) :=
  try_except
    (let! api_key := get_api_key_from_airflow in
     let! api_response :=
       fetch_news_from_api fuel api_key search_query days_back in
     let articles := articles api_response in
     match articles with
     | [] => ret None
     | _ =>
         let! df := process_articles_to_dataframe articles in
         if df_empty df then ret None
         else
           let! now := datetime_now in
           let current_time := strftime_compact now in
           let filename :=
             lit "news_data_" ++ search_query ++ lit "_" ++ current_time
               ++ lit ".parquet" in
           let! local_file_path := save_dataframe_to_parquet df filename in
           let destination_blob_name :=
             lit "news_data_analysis/" ++ filename in
           let! upload_success :=
             upload_to_gcs bucket_name destination_blob_name local_file_path in
           if upload_success then
             os_remove local_file_path ;;
             let gcs_path :=
               lit "gs://" ++ bucket_name ++ lit "/" ++ destination_blob_name in
             ret (Some gcs_path)
           else raise UploadReportedFailure
     end)%io
    (fun e => raise e).

End Pipeline.

(** ** Vocabulary of the statements *)

(** The length of the hard cut of line 101, [cleaned_content[:199]]. *)
Definition truncation_point : nat := 199.

(** The threshold of line 94. *)
Definition length_bound : nat := 200.

Definition letter_a : N := 97%N.

(** Two sentence ends, at indices 150 and 180, in 251 characters. *)
Definition two_sentences : str :=
  replicate 150 letter_a ++ [period] ++ replicate 29 letter_a ++ [period]
    ++ replicate 70 letter_a.

(** Sentence ends at indices 150 and 250, in 260 characters: the second
    one lies beyond the truncation point. *)
Definition late_sentence : str :=
  replicate 150 letter_a ++ [period] ++ replicate 99 letter_a ++ [period]
    ++ replicate 9 letter_a.

(** 250 letters closed by one period. *)
Definition long_sentence : str := replicate 250 letter_a ++ [period].

(** An article whose title is present and null: [{"title": null,
    "content": "x"}]. *)
Definition null_title_article : pyval :=
  PDict [(lit "title", PNone); (lit "content", PStr (lit "x"))].

(** The same with the null in [author] instead. *)
Definition null_author_article : pyval :=
  PDict [(lit "title", PStr (lit "T")); (lit "author", PNone);
         (lit "content", PStr (lit "x"))].

(** Whether the body of the [try] gets through an article. *)
Definition survives (article : pyval) : bool :=
  match extract_fields article with
  | Ok _ => true
  | Raise _ => false
  end.

Definition fields_or_skip (article : pyval) : option article_fields :=
  match extract_fields article with
  | Ok f => Some f
  | Raise _ => None
  end.

(** The columns of a row that come from the article. *)
Definition row_fields (r : news_row) : article_fields :=
  {| news_title := newsTitle r; f_timestamp := timestamp r;
     f_url_source := url_source r; source_name := source r;
     f_author := author r; url_to_image := urlToImage r;
     cleaned_content := content r |}.

(** Rows for a list of extracted fields, each stamped with its own clock
    reading, the first one being reading number [t0]. *)
Definition stamp (E : env) (t0 : nat) (l : list article_fields) : dataframe :=
  imap (fun i f => new_row f (isoformat (clock E (t0 + i)))) l.

(** The world after [n] more clock readings. *)
Definition advance (n : nat) (w : world) : world :=
  {| fs := fs w; ticks := n + ticks w; trace := trace w |}.

Definition key_name : str := lit "NEWS_API_KEY".

(** The store raises, holds no value, or holds an empty or white-space-only
    string. *)
Definition key_unusable (E : env) : Prop :=
  match Variable_get E key_name with
  | Raise _ => True
  | Ok None => True
  | Ok (Some v) => v = [] ∨ forallb is_space v = true
  end.

(** The request for page 1 that a call made at clock reading [today]
    sends. *)
Definition first_request (E : env) (api_key search_query : str)
    (days_back : Z) (w : world) : request :=
  let today := ordinal (clock E (ticks w)) in
  {| base := {| param_q := search_query;
                param_from := (today - days_back)%Z; param_to := today;
                param_sortBy := lit "popularity"; param_apiKey := api_key;
                param_language := lit "en"; param_pageSize := 100 |};
     param_page := 1 |}.

(** The articles a page brings: what iterating over the value under
    ["articles"] gives, nothing when that value is missing or falsy. *)
Definition page_articles (reply : http_reply) : list pyval :=
  match reply with
  | Reply _ (Ok data) =>
      match py_get data (lit "articles") (PList []) with
      | Ok arts =>
          if truthy arts then
            match py_iter arts with Ok items => items | Raise _ => [] end
          else []
      | Raise _ => []
      end
  | _ => []
  end.

(** The file name of a run that reads the clock at [now]. *)
Definition run_filename (search_query : str) (now : instant) : str :=
  lit "news_data_" ++ search_query ++ lit "_" ++ strftime_compact now
    ++ lit ".parquet".

(** [gs://<bucket>/news_data_analysis/<filename>] *)
Definition storage_uri (filename : str) : str :=
  lit "gs://" ++ bucket_name ++ lit "/" ++ lit "news_data_analysis/"
    ++ filename.

(** Calls that write the file or reach the bucket. *)
Definition is_write_or_upload (e : event) : bool :=
  match e with
  | EvMakedirs _ | EvToParquet _ | EvStorageClient | EvUpload _ _ _
  | EvRemove _ => true
  | EvVariableGet _ | EvHttpGet _ => false
  end.

(** *** A sample run

    A store holding [" key "], a page of two articles of which the second
    has a null title, collaborators that all succeed, and a clock stuck at
    one reading. *)

Definition sample_article (title : pyval) (text : string) : pyval :=
  PDict [(lit "title", title);
         (lit "publishedAt", PStr (lit "2025-10-03T08:00:00Z"));
         (lit "source",
          PDict [(lit "id", PNone); (lit "name", PStr (lit "Wired"))]);
         (lit "author", PNone);
         (lit "content", PStr (lit text))].

Definition sample_page (arts : list pyval) : pyval :=
  PDict [(lit "status", PStr (lit "ok")); (lit "totalResults", PInt 5);
         (lit "articles", PList arts)].

Definition sample_instant : instant :=
  {| ordinal := 739527; isoformat := lit "2025-10-03T12:00:00.000001";
     strftime_compact := lit "20251003_120000" |}.

Definition sample_env (arts : list pyval) (upload : option exn) : env :=
  {| Variable_get := fun _ => Ok (Some (lit " key "));
     requests_get := fun _ => Reply 200 (Ok (sample_page arts));
     os_makedirs := fun _ => None;
     to_parquet := fun _ _ => Written;
     storage_Client := None;
     upload_from_filename := fun _ _ _ => upload;
     clock := fun _ => sample_instant |}.

Definition sample_articles : list pyval :=
  [sample_article (PStr (lit " Chips ")) "First. ";
   sample_article PNone "Second."].

Definition empty_world : world := {| fs := ∅; ticks := 0; trace := [] |}.

Definition sample_filename : str := lit "news_data_apple_20251003_120000.parquet".

(** A full page: 100 articles while 500 are announced. *)
Definition full_page_env : env :=
  {| Variable_get := fun _ => Ok (Some (lit "key"));
     requests_get := fun _ =>
       Reply 200
         (Ok (PDict [(lit "status", PStr (lit "ok"));
                     (lit "totalResults", PInt 500);
                     (lit "articles",
                      PList (replicate 100
                               (sample_article (PStr (lit "T")) "x")))]));
     os_makedirs := fun _ => None;
     to_parquet := fun _ _ => Written;
     storage_Client := None;
     upload_from_filename := fun _ _ _ => None;
     clock := fun _ => sample_instant |}.

(** *** Vocabulary of the further properties *)

Definition starts_with_space (s : str) : bool :=
  match s with
  | c :: _ => is_space c
  | [] => false
  end.

(** Neither the first nor the last character is white space. *)
Definition trimmed (s : str) : Prop :=
  starts_with_space s = false ∧ starts_with_space (rev s) = false.

Definition is_str (v : pyval) : bool :=
  match v with PStr _ => true | _ => false end.

Definition is_dict (v : pyval) : bool :=
  match v with PDict _ => true | _ => false end.

(** The value under [key], or [default] when the key is missing. *)
Definition get_or (items : list (str * pyval)) (key : string)
    (default : pyval) : pyval :=
  from_option id default (dict_lookup (lit key) items).

(** The articles the loop keeps: a dict whose title, when there is one,
    is a str, whose source is falsy or a dict, and whose author and
    content are falsy or a str. *)
Definition article_kept (article : pyval) : bool :=
  match article with
  | PDict items =>
      is_str (get_or items "title" empty_str)
      && (negb (truthy (get_or items "source" PNone))
          || is_dict (get_or items "source" PNone))
      && (negb (truthy (get_or items "author" PNone))
          || is_str (get_or items "author" PNone))
      && (negb (truthy (get_or items "content" empty_str))
          || is_str (get_or items "content" empty_str))
  | _ => false
  end.

(** The page that a reply carries, when it carries one. *)
Definition reply_page (reply : http_reply) : option (list (str * pyval)) :=
  match reply with
  | Reply code (Ok (PDict items)) =>
      if ((400 <=? code) && (code <? 600))%Z then None else Some items
  | _ => None
  end.

(** Numbers, the values a length can be compared with. *)
Definition is_number (v : pyval) : bool :=
  match v with PInt _ | PBool _ | PFloat _ => true | _ => false end.

(** The callable of the DAG task [newsapi_data_to_gcs]: the operator
    passes no argument, so the defaults of line 315 apply. *)
Definition newsapi_data_to_gcs (E : env) (fuel : nat) : M (option str) :=
  fetch_news_data E fuel (lit "technology") 1.

(** The new events of a run from [w] to [w']. *)
Definition events_since (w w' : world) : list event :=
  drop (length (trace w)) (trace w').

Definition is_remove (e : event) : bool :=
  match e with EvRemove _ => true | _ => false end.

Definition is_storage_call (e : event) : bool :=
  match e with EvStorageClient | EvUpload _ _ _ => true | _ => false end.

(** A sample store that lacks the variable. *)
Definition keyless_env : env :=
  {| Variable_get := fun _ => Raise (External (lit "KeyError"));
     requests_get := fun _ => Reply 200 (Ok (sample_page []));
     os_makedirs := fun _ => None;
     to_parquet := fun _ _ => Written;
     storage_Client := None;
     upload_from_filename := fun _ _ _ => None;
     clock := fun _ => sample_instant |}.

(** A sample environment answering every request with [reply]. *)
Definition reply_env (reply : http_reply) : env :=
  {| Variable_get := fun _ => Ok (Some (lit "key"));
     requests_get := fun _ => reply;
     os_makedirs := fun _ => None;
     to_parquet := fun _ _ => Written;
     storage_Client := None;
     upload_from_filename := fun _ _ _ => None;
     clock := fun _ => sample_instant |}.

(** A sample environment whose writer behaves as [outcome]. *)
Definition writer_env (dirs : option exn) (outcome : parquet_outcome) : env :=
  {| Variable_get := fun _ => Ok (Some (lit "key"));
     requests_get := fun _ => Reply 200 (Ok (sample_page sample_articles));
     os_makedirs := fun _ => dirs;
     to_parquet := fun _ _ => outcome;
     storage_Client := None;
     upload_from_filename := fun _ _ _ => None;
     clock := fun _ => sample_instant |}.

(** One period, at index 50, in 250 characters. *)
Definition early_sentence : str :=
  replicate 50 letter_a ++ [period] ++ replicate 199 letter_a.

(** The local variables before the loop (lines 146-148). *)
Definition start_state : fetch_state :=
  {| all_articles := []; page := 1; total_results := PInt 0 |}.

(** The key the driver works with when the store has a usable one. *)
Definition stored_key (E : env) : str :=
  match Variable_get E key_name with
  | Ok (Some v) => strip v
  | _ => []
  end.

(** Every file of [w] is still a file of [w']. *)
Definition keeps_files (w w' : world) : Prop :=
  ∀ path, is_Some (fs w !! path) → is_Some (fs w' !! path).

(** The first day of the window of a call made in [w], when there is
    one. *)
Definition start_date_of (E : env) (days_back : Z) (w : world) : result Z :=
  date_minus_days (ordinal (clock E (ticks w))) days_back.

(** * Properties *)

(** ** Strings *)

Lemma rfind_from_none c (s : str) k :
  (∀ j, s !! j ≠ Some c) → rfind_from c s k = (-1)%Z.
Proof.
  revert k. induction s as [|x t IH]; intros k Hno; [done|].
  cbn [rfind_from]. rewrite IH.
  - cbn. destruct (N.eqb_spec x c) as [->|]; [|done].
    by destruct (Hno 0%nat).
  - intros j. apply (Hno (S j)).
Qed.

(** The index [rfind] answers is the one of the last occurrence. *)
Lemma rfind_from_last c (s : str) k i :
  (0 ≤ k)%Z → s !! i = Some c → (∀ j, i < j → s !! j ≠ Some c) →
  rfind_from c s k = (k + Z.of_nat i)%Z.
Proof.
  revert k i. induction s as [|x t IH]; intros k i Hk Hi Hlast; [done|].
  cbn [rfind_from]. destruct i as [|i].
  - rewrite rfind_from_none.
    + injection Hi as ->. cbn. rewrite N.eqb_refl. lia.
    + intros j. apply (Hlast (S j)). lia.
  - rewrite (IH (k + 1)%Z i); [|lia|done|].
    + destruct (Z.leb_spec 0 (k + 1 + Z.of_nat i)); lia.
    + intros j Hj. apply (Hlast (S j)). lia.
Qed.

Lemma rfind_from_range c (s : str) k :
  rfind_from c s k = (-1)%Z ∨
  (k ≤ rfind_from c s k < k + Z.of_nat (length s))%Z.
Proof.
  revert k. induction s as [|x t IH]; intros k; [by left|].
  cbn [rfind_from length]. destruct (IH (k + 1)%Z) as [->|Hr].
  - cbn. destruct (x =? c)%N; [right; lia|by left].
  - destruct (Z.leb_spec 0 (rfind_from c t (k + 1))); [right; lia|].
    destruct (x =? c)%N; [right; lia|by left].
Qed.

Lemma rfind_last c (s : str) i :
  s !! i = Some c → (∀ j, i < j → s !! j ≠ Some c) → rfind c s = Z.of_nat i.
Proof. intros. unfold rfind. by rewrite (rfind_from_last c s 0 i). Qed.

Lemma slice_to_nat (s : str) (n : nat) : slice_to s (Z.of_nat n) = take n s.
Proof.
  unfold slice_to. destruct (Z.leb_spec 0 (Z.of_nat n)); [|lia].
  by rewrite Nat2Z.id.
Qed.

Lemma lstrip_nil_iff (s : str) : lstrip s = [] ↔ forallb is_space s = true.
Proof.
  induction s as [|c t IH]; [done|]. cbn.
  destruct (is_space c); cbn; [done|]. split; discriminate.
Qed.

Lemma lstrip_head (s : str) c t : lstrip s = c :: t → is_space c = false.
Proof.
  induction s as [|x u IH]; [done|]. cbn.
  destruct (is_space x) eqn:Hx; [done|]. by intros [= <- _].
Qed.

Lemma forallb_rev {A} (f : A → bool) l : forallb f (rev l) = forallb f l.
Proof.
  induction l as [|x l IH]; [done|]. cbn.
  rewrite forallb_app, IH. cbn. destruct (f x), (forallb f l); done.
Qed.

(** [strip] leaves nothing exactly for the strings made of white space. *)
Lemma strip_nil_iff (s : str) : strip s = [] ↔ forallb is_space s = true.
Proof.
  unfold strip, rstrip. split.
  - intros H. apply (f_equal (@rev N)) in H. rewrite rev_involutive in H.
    cbn in H. apply lstrip_nil_iff in H. rewrite forallb_rev in H.
    destruct (lstrip s) as [|c t] eqn:Hs; [by apply lstrip_nil_iff|].
    apply lstrip_head in Hs. cbn in H. by rewrite Hs in H.
  - intros H. apply lstrip_nil_iff in H. by rewrite H.
Qed.

Lemma truthy_str_of_strip (s : str) : strip s ≠ [] → truthy (PStr s) = true.
Proof.
  intros H. cbn. case_bool_decide as Hs; [|done]. by subst.
Qed.

(** ** clean_article_content *)

Lemma clean_article_content_long (s : str) :
  length_bound < length (strip s) →
  clean_article_content (PStr s) =
    if (100 <? rfind period (strip s))%Z
    then Ok (slice_to (strip s) (rfind period (strip s) + 1))
    else Ok (slice_to (strip s) 199).
Proof.
  intros Hlen. unfold clean_article_content.
  unfold length_bound in Hlen.
  rewrite truthy_str_of_strip; [|intros Hs; rewrite Hs in Hlen; cbn in Hlen; lia].
  cbn [negb py_strip rbind].
  destruct (Nat.ltb_spec 200 (length (strip s))); [done|lia].
Qed.

(** Content of at most 200 characters after trimming comes back trimmed
    and otherwise unchanged. *)
Lemma clean_article_content_short (s : str) :
  length (strip s) ≤ length_bound →
  clean_article_content (PStr s) = Ok (strip s).
Proof.
  intros Hlen. unfold length_bound in Hlen. unfold clean_article_content.
  destruct (truthy (PStr s)) eqn:Ht; cbn [negb py_strip rbind].
  - destruct (Nat.ltb_spec 200 (length (strip s))); [lia|done].
  - cbn in Ht. case_bool_decide; [by subst|done].
Qed.

(** X24: when the trimmed content is longer than 200 characters and the
    last period of the whole trimmed content stands at an index above 100
    and at or before the truncation point, the result is the trimmed
    content cut just after that period, so it ends with that period. *)
Theorem clean_article_content_ends_at_last_period (s : str) (i : nat) :
  length_bound < length (strip s) →
  strip s !! i = Some period →
  100 < i → i ≤ truncation_point →
  (∀ j, i < j → strip s !! j ≠ Some period) →
  clean_article_content (PStr s) = Ok (take (S i) (strip s))
  ∧ last (take (S i) (strip s)) = Some period
  ∧ length (take (S i) (strip s)) = S i.
Proof.
  intros Hlen Hi Hlo _ Hlast.
  rewrite (clean_article_content_long s Hlen), (rfind_last _ _ i Hi Hlast).
  destruct (Z.ltb_spec 100 (Z.of_nat i)); [|lia].
  replace (Z.of_nat i + 1)%Z with (Z.of_nat (S i)) by lia.
  rewrite slice_to_nat. split; [done|].
  apply lookup_lt_Some in Hi as Hlt. split.
  - rewrite last_lookup, length_take, Nat.min_l by lia. cbn.
    rewrite lookup_take_lt by lia. done.
  - rewrite length_take. lia.
Qed.

Lemma clean_article_content_ends_at_last_period_witness :
  clean_article_content (PStr two_sentences) = Ok (take 181 (strip two_sentences))
  ∧ last (take 181 (strip two_sentences)) = Some period
  ∧ length (take 181 (strip two_sentences)) = 181.
Proof.
  apply (clean_article_content_ends_at_last_period two_sentences 180).
  - vm_compute. lia.
  - reflexivity.
  - lia.
  - vm_compute. lia.
  - intros j Hj. destruct (decide (j < 251)) as [Hlt|Hge].
    + do 181 (destruct j as [|j]; [lia|]).
      do 70 (destruct j as [|j]; [discriminate|]). simpl in Hlt. lia.
    + rewrite lookup_ge_None_2; [done|]. vm_compute. lia.
Defined.

(** C1 at its failing input: in [late_sentence], 260 characters, the
    period at index 150 is above 100 and is the last one within the first
    200 characters, so the last one at or before the truncation point;
    the result does not end there but runs on to the period at index 250
    and has 251 characters. *)
Theorem clean_article_content_runs_past_truncation_point :
  length_bound < length (strip late_sentence)
  ∧ strip late_sentence !! 150 = Some period
  ∧ 100 < 150 ∧ 150 ≤ truncation_point
  ∧ (∀ j, 150 < j → j ≤ length_bound →
          strip late_sentence !! j ≠ Some period)
  ∧ clean_article_content (PStr late_sentence)
      ≠ Ok (take 151 (strip late_sentence))
  ∧ clean_article_content (PStr late_sentence)
      = Ok (take 251 (strip late_sentence))
  ∧ last (take 251 (strip late_sentence)) = Some period
  ∧ length (take 251 (strip late_sentence)) = 251.
Proof.
  split; [vm_compute; lia|]. split; [reflexivity|].
  split; [lia|]. split; [vm_compute; lia|]. split.
  { intros j Hlo Hhi. unfold length_bound in Hhi.
    do 151 (destruct j as [|j]; [lia|]).
    do 50 (destruct j as [|j]; [discriminate|]). lia. }
  assert (clean_article_content (PStr late_sentence)
          = Ok (take 251 (strip late_sentence))) as -> by (by vm_compute).
  split; [|split; [done|split; reflexivity]].
  intros H%(f_equal (fun r => match r with
                              | Ok t => length t
                              | Raise _ => 0
                              end)).
  vm_compute in H. discriminate.
Qed.

Lemma strip_sentence n :
  strip (replicate n letter_a ++ [period]) = replicate n letter_a ++ [period].
Proof.
  unfold strip, rstrip.
  assert (lstrip (replicate n letter_a ++ [period])
          = replicate n letter_a ++ [period]) as -> by (by destruct n).
  rewrite rev_app_distr. cbn. by rewrite rev_involutive.
Qed.

(** No bound at all: a sentence of any length above 200 comes back
    whole. *)
Lemma clean_article_content_unbounded n :
  length_bound ≤ n →
  clean_article_content (PStr (replicate n letter_a ++ [period]))
  = Ok (replicate n letter_a ++ [period]).
Proof.
  intros Hn. unfold length_bound in Hn.
  rewrite clean_article_content_long; rewrite strip_sentence;
    [|rewrite length_app, length_replicate; unfold length_bound; cbn; lia].
  rewrite (rfind_last _ _ n).
  - destruct (Z.ltb_spec 100 (Z.of_nat n)); [|lia].
    replace (Z.of_nat n + 1)%Z with (Z.of_nat (S n)) by lia.
    rewrite slice_to_nat, take_ge; [done|].
    rewrite length_app, length_replicate. cbn. lia.
  - rewrite lookup_app_r, length_replicate, Nat.sub_diag; [done|].
    by rewrite length_replicate.
  - intros j Hj. rewrite lookup_ge_None_2; [done|].
    rewrite length_app, length_replicate. cbn. lia.
Qed.

(** Where the bound does hold: whenever the last period of the trimmed
    content lies within the first 200 characters. *)
Lemma clean_article_content_bounded (s t : str) :
  (rfind period (strip s) < Z.of_nat length_bound)%Z →
  clean_article_content (PStr s) = Ok t → length t ≤ length_bound.
Proof.
  intros Hr. destruct (decide (length (strip s) ≤ length_bound)) as [Hle|Hgt].
  - rewrite clean_article_content_short by done. by intros [= <-].
  - rewrite clean_article_content_long by lia. unfold length_bound in *.
    destruct (Z.ltb_spec 100 (rfind period (strip s))).
    + intros [= <-]. unfold slice_to.
      destruct (Z.leb_spec 0 (rfind period (strip s) + 1)); [|lia].
      rewrite length_take. lia.
    + intros [= <-]. cbn -[take]. rewrite length_take. lia.
Qed.

(** C2 at its failing input: 250 letters and a final period are returned
    whole, 251 characters, above the bound of 200; and no other constant
    bounds the result either. *)
Theorem clean_article_content_exceeds_bound :
  (clean_article_content (PStr long_sentence) = Ok long_sentence
   ∧ length long_sentence = 251
   ∧ length_bound < length long_sentence)
  ∧ ∀ bound : nat,
      ∃ s t, clean_article_content (PStr s) = Ok t ∧ bound < length t.
Proof.
  split.
  - split; [|split; [reflexivity|vm_compute; lia]].
    apply (clean_article_content_unbounded 250). vm_compute. lia.
  - intros bound.
    exists (replicate (bound + length_bound) letter_a ++ [period]).
    eexists. split; [apply clean_article_content_unbounded; lia|].
    rewrite length_app, length_replicate. cbn. lia.
Qed.

(** ** The monad *)

Lemma try_except_reraise {A} (m : M A) w :
  try_except m (fun e => raise e) w = m w.
Proof. unfold try_except, raise. by destruct (m w) as [[[a|e] w']|]. Qed.

Lemma bind_ok {A B} (m : M A) (k : A → M B) w a w' :
  m w = Some (Ok a, w') → bind m k w = k a w'.
Proof. unfold bind. by intros ->. Qed.

Lemma bind_raise {A B} (m : M A) (k : A → M B) w e w' :
  m w = Some (Raise e, w') → bind m k w = Some (Raise e, w').
Proof. unfold bind. by intros ->. Qed.

Lemma advance_0 w : advance 0 w = w.
Proof. by destruct w. Qed.

(** ** process_articles_to_dataframe *)

Lemma stamp_cons E t0 f l :
  stamp E t0 (f :: l)
  = new_row f (isoformat (clock E t0)) :: stamp E (S t0) l.
Proof.
  unfold stamp. rewrite imap_cons, Nat.add_0_r. f_equal.
  apply imap_ext. intros i x _. cbn. by rewrite Nat.add_succ_r.
Qed.

Lemma stamp_length E t0 l : length (stamp E t0 l) = length l.
Proof. unfold stamp. apply length_imap. Qed.

Lemma stamp_fields E t0 l : row_fields <$> stamp E t0 l = l.
Proof.
  revert t0. induction l as [|f l IH]; intros t0; [done|].
  rewrite stamp_cons, fmap_cons, IH. by destruct f.
Qed.

Lemma advance_advance n m w : advance n (advance m w) = advance (n + m) w.
Proof. unfold advance. cbn. f_equal. lia. Qed.

(** One pass of the [for] loop: a row more, or the frame as it was. *)
Lemma append_article_or_skip E df article w :
  try_except (append_article E df article) (fun e => ret df) w
  = match fields_or_skip article with
    | Some f =>
        Some (Ok (df ++ [new_row f (isoformat (clock E (ticks w)))]),
              advance 1 w)
    | None => Some (Ok df, w)
    end.
Proof.
  unfold try_except, append_article, fields_or_skip, bind.
  by destruct (extract_fields article).
Qed.

Lemma process_loop_spec E articles df w :
  process_loop E articles df w
  = Some (Ok (df ++ stamp E (ticks w) (omap fields_or_skip articles)),
          advance (length (omap fields_or_skip articles)) w).
Proof.
  revert df w. induction articles as [|a rest IH]; intros df w.
  - cbn. by rewrite app_nil_r, advance_0.
  - cbn [process_loop omap list_omap].
    unfold bind at 1. rewrite append_article_or_skip.
    destruct (fields_or_skip a) as [f|]; [|apply IH].
    rewrite IH, stamp_cons, advance_advance, <- app_assoc. cbn.
    by rewrite Nat.add_1_r.
Qed.

Lemma fields_or_skip_Some a f :
  fields_or_skip a = Some f → extract_fields a = Ok f ∧ survives a.
Proof.
  unfold fields_or_skip, survives.
  destruct (extract_fields a); [|done]. by intros [= ->].
Qed.

Lemma fields_or_skip_None a : fields_or_skip a = None → ¬ survives a.
Proof.
  unfold fields_or_skip, survives.
  destruct (extract_fields a); [done|]. intros _ [].
Qed.

Lemma survivors_extracted (articles : list pyval) :
  Forall2 (fun a f => extract_fields a = Ok f)
    (filter (fun a => survives a) articles) (omap fields_or_skip articles).
Proof.
  induction articles as [|a rest IH]; [constructor|]. cbn -[filter].
  destruct (fields_or_skip a) as [f|] eqn:Hf.
  - apply fields_or_skip_Some in Hf as [Hf Hs].
    rewrite filter_cons_True by done. by constructor.
  - apply fields_or_skip_None in Hf. by rewrite filter_cons_False.
Qed.

Lemma count_survivors (articles : list pyval) :
  length (omap fields_or_skip articles)
  = length articles - length (filter (fun a => ¬ survives a) articles).
Proof.
  assert (length (omap fields_or_skip articles)
          + length (filter (fun a => ¬ survives a) articles)
          = length articles) as H; [|lia].
  induction articles as [|a rest IH]; [done|]. cbn -[filter].
  destruct (fields_or_skip a) as [f|] eqn:Hf.
  - apply fields_or_skip_Some in Hf as [Hf Hs].
    rewrite filter_cons_False by tauto. cbn. lia.
  - apply fields_or_skip_None in Hf.
    rewrite filter_cons_True by done. cbn. lia.
Qed.

(** C3: from N articles of which K raise inside the [try], the loop
    returns (never raises) a frame of N-K rows; they are the rows of the
    surviving articles, in the order of the input, each with its own
    clock reading, and nothing stands in for a skipped article. *)
Theorem process_articles_skips_failures E (articles : list pyval) w :
  let df := stamp E (ticks w) (omap fields_or_skip articles) in
  process_articles_to_dataframe E articles w
    = Some (Ok df, advance (length df) w)
  ∧ length df
    = length articles - length (filter (fun a => ¬ survives a) articles)
  ∧ Forall2 (fun a row => extract_fields a = Ok (row_fields row))
      (filter (fun a => survives a) articles) df.
Proof.
  cbn zeta. split; [|split].
  - unfold process_articles_to_dataframe.
    by rewrite process_loop_spec, stamp_length.
  - rewrite stamp_length. apply count_survivors.
  - apply (Forall2_fmap_r row_fields (fun a f => extract_fields a = Ok f)).
    rewrite stamp_fields. apply survivors_extracted.
Qed.

(** A dict article whose [title] is null is dropped, whatever else it
    holds: [None] has no [strip]. *)
Lemma extract_fields_null_title items :
  dict_lookup (lit "title") items = Some PNone →
  extract_fields (PDict items) = Raise AttributeError.
Proof. intros H. unfold extract_fields. cbn [py_get]. by rewrite H. Qed.

(** The guard the [author] line has: a null author gives an empty
    string and the article is kept. *)
Lemma null_author_article_is_kept E w :
  process_articles_to_dataframe E [null_author_article] w
  = Some (Ok [ {| newsTitle := lit "T"; timestamp := empty_str;
                  url_source := empty_str; content := lit "x";
                  source := empty_str; author := [];
                  urlToImage := empty_str;
                  processed_at := isoformat (clock E (ticks w)) |} ],
          advance 1 w).
Proof.
  unfold process_articles_to_dataframe. rewrite process_loop_spec.
  assert (omap fields_or_skip [null_author_article]
          = [ {| news_title := lit "T"; f_timestamp := empty_str;
                 f_url_source := empty_str; source_name := empty_str;
                 f_author := []; url_to_image := empty_str;
                 cleaned_content := lit "x" |} ]) as -> by (by vm_compute).
  unfold stamp. cbn [imap app length]. by rewrite Nat.add_0_r.
Qed.

(** C4 at its failing input: the article [{"title": null, "content":
    "x"}] raises AttributeError inside the [try] and leaves no row. *)
Theorem null_title_article_is_skipped E w :
  extract_fields null_title_article = Raise AttributeError
  ∧ process_articles_to_dataframe E [null_title_article] w = Some (Ok [], w).
Proof.
  split; [reflexivity|].
  unfold process_articles_to_dataframe. rewrite process_loop_spec.
  assert (omap fields_or_skip [null_title_article] = []) as ->
    by (by vm_compute).
  cbn. by rewrite advance_0.
Qed.

(** ** upload_to_gcs *)

Lemma upload_to_gcs_spec E b d f w :
  upload_to_gcs E b d f w
  = match storage_Client E with
    | Some e => Some (Raise e, log_event EvStorageClient w)
    | None =>
        match upload_from_filename E b d f with
        | Some e =>
            Some (Raise e,
                  log_event (EvUpload b d f) (log_event EvStorageClient w))
        | None =>
            Some (Ok true,
                  log_event (EvUpload b d f) (log_event EvStorageClient w))
        end
    end.
Proof.
  unfold upload_to_gcs. rewrite try_except_reraise.
  unfold bind, call_storage_Client, call_upload_from_filename, ret.
  destruct (storage_Client E); [done|].
  by destruct (upload_from_filename E b d f).
Qed.

(** C7: [upload_to_gcs] returns True or raises; it never returns
    False. *)
Theorem upload_to_gcs_true_or_raises E (b d f : str) w :
  ((∃ w', upload_to_gcs E b d f w = Some (Ok true, w'))
   ∨ (∃ e w', upload_to_gcs E b d f w = Some (Raise e, w')))
  ∧ (∀ w', upload_to_gcs E b d f w ≠ Some (Ok false, w')).
Proof.
  rewrite upload_to_gcs_spec.
  destruct (storage_Client E) as [e|]; [by eauto|].
  destruct (upload_from_filename E b d f) as [e|]; by eauto.
Qed.

Lemma upload_to_gcs_world E b d f w res w' :
  upload_to_gcs E b d f w = Some (res, w') →
  fs w' = fs w
  ∧ (trace w' = trace w ++ [EvStorageClient]
     ∨ trace w' = trace w ++ [EvStorageClient; EvUpload b d f]).
Proof.
  rewrite upload_to_gcs_spec.
  destruct (storage_Client E) as [e|].
  { intros [= <- <-]. by eauto. }
  destruct (upload_from_filename E b d f) as [e|]; intros [= <- <-];
    cbn; rewrite <- app_assoc; by eauto.
Qed.

(** ** get_api_key_from_airflow *)

Lemma get_api_key_from_airflow_spec E w :
  get_api_key_from_airflow E w
  = Some (match Variable_get E key_name with
          | Ok (Some v) =>
              if forallb is_space v then Raise (ValueError msg_key_not_found)
              else Ok (strip v)
          | _ => Raise (ValueError msg_key_not_found)
          end,
          log_event (EvVariableGet key_name) w).
Proof.
  unfold get_api_key_from_airflow, try_except, bind, call_Variable_get.
  fold key_name. destruct (Variable_get E key_name) as [[v|]|e]; cbn; [|done..].
  destruct (forallb is_space v) eqn:Hv.
  - apply strip_nil_iff in Hv as ->.
    rewrite (bool_decide_eq_true_2 ([] = [])), orb_true_r by done. done.
  - rewrite !bool_decide_eq_false_2; [done|..].
    + intros Hs%strip_nil_iff. congruence.
    + intros ->. done.
Qed.

(** ** fetch_news_from_api *)

Ltac leaves_loop := eexists; split; [reflexivity|cbn; try done].

(** A pass through the loop body sends one request and then leaves the
    loop, by [break] or by raising; a [break] has added the articles of
    the page. *)
Lemma fetch_page_spec E base_params st w :
  ∃ res,
    fetch_page E base_params st w
    = Some (res, log_event (EvHttpGet (with_page base_params (page st))) w)
    ∧ match res with
      | Ok (Break st') =>
          all_articles st'
          = all_articles st
              ++ page_articles
                   (requests_get E (with_page base_params (page st)))
      | Ok (Continue _) => False
      | Raise _ => True
      end.
Proof.
  unfold fetch_page, bind, call_requests_get, page_articles.
  destruct (requests_get E _) as [e|code body]; [leaves_loop|].
  unfold raise_for_status.
  destruct ((400 <=? code) && (code <? 600))%Z; [leaves_loop|].
  unfold ret, response_json.
  destruct body as [data|e]; [|leaves_loop]. cbn [lift ret].
  destruct (py_get data (lit "status") PNone) as [st_|e]; [|leaves_loop].
  cbn [lift ret]. destruct (py_ne_str st_ _).
  { destruct (py_get data (lit "message") _); leaves_loop. }
  destruct (py_get data (lit "articles") _) as [arts|e]; [|leaves_loop].
  cbn [lift ret]. destruct (truthy arts); cbn [negb].
  2:{ leaves_loop. by rewrite app_nil_r. }
  destruct (py_iter arts) as [items|e]; [|leaves_loop]. cbn [lift ret].
  destruct (page st =? 1)%Z.
  - destruct (py_get data (lit "totalResults") _) as [t|e]; [|leaves_loop].
    cbn [lift ret].
    destruct (py_int_ge _ t) as [[]|e]; [leaves_loop| |leaves_loop].
    cbn [lift ret]. destruct (py_len arts); [|leaves_loop].
    cbn [lift ret]. destruct (_ <? _)%Z; leaves_loop.
  - cbn [lift ret].
    destruct (py_int_ge _ _) as [[]|e]; [leaves_loop| |leaves_loop].
    cbn [lift ret]. destruct (py_len arts); [|leaves_loop].
    cbn [lift ret]. destruct (_ <? _)%Z; leaves_loop.
Qed.

(** With any fuel the loop runs its body once. *)
Lemma while_true_fetch_page E base_params st fuel w :
  ∃ res,
    while_true (S fuel) (fetch_page E base_params) st w
    = Some (res, log_event (EvHttpGet (with_page base_params (page st))) w)
    ∧ match res with
      | Ok st' =>
          all_articles st'
          = all_articles st
              ++ page_articles
                   (requests_get E (with_page base_params (page st)))
      | Raise _ => True
      end.
Proof.
  destruct (fetch_page_spec E base_params st w) as (res & Hrun & Hres).
  cbn [while_true]. rewrite Hrun.
  destruct res as [[st'|st']|e]; [|done|]; eexists; by split.
Qed.

Lemma date_minus_days_Ok today days_back day :
  date_minus_days today days_back = Ok day →
  day = (today - days_back)%Z
  ∧ (date_min_ordinal ≤ day ≤ date_max_ordinal)%Z.
Proof.
  unfold date_minus_days. destruct (_ <? _)%Z; [done|].
  destruct (Z.leb_spec date_min_ordinal (today - days_back)),
    (Z.leb_spec (today - days_back) date_max_ordinal); try done.
  intros [= <-]. lia.
Qed.

Lemma date_minus_days_Raise today days_back e :
  date_minus_days today days_back = Raise e → e = OverflowError.
Proof.
  unfold date_minus_days. destruct (_ <? _)%Z; [by intros [= <-]|].
  destruct (_ && _); [done|by intros [= <-]].
Qed.

(** The call: the window, then the loop from the initial variables. *)
Lemma fetch_news_from_api_unfold E fuel api_key search_query days_back w :
  fetch_news_from_api E fuel api_key search_query days_back w
  = match start_date_of E days_back w with
    | Raise e => Some (Raise e, advance 1 w)
    | Ok _ =>
        match while_true fuel
                (fetch_page E
                   (base (first_request E api_key search_query days_back w)))
                start_state (advance 1 w) with
        | Some (Ok st, w') =>
            Some (Ok {| status := lit "ok";
                        totalResults := length (all_articles st);
                        articles := all_articles st |}, w')
        | Some (Raise e, w') => Some (Raise e, w')
        | None => None
        end
    end.
Proof.
  unfold fetch_news_from_api. rewrite try_except_reraise.
  unfold date_today, datetime_now, bind, ret, start_date_of. cbv beta iota.
  destruct (date_minus_days _ days_back) as [day|e] eqn:Hday; [|done].
  apply date_minus_days_Ok in Hday as [-> _]. cbn [lift ret].
  change (while_true fuel _ _ _)
    with (while_true fuel
            (fetch_page E
               (base (first_request E api_key search_query days_back w)))
            start_state (advance 1 w)).
  by destruct (while_true fuel _ start_state (advance 1 w))
    as [[[st|e] w']|].
Qed.

Lemma fetch_news_from_api_spec E fuel api_key search_query days_back w :
  let req := first_request E api_key search_query days_back w in
  match start_date_of E days_back w with
  | Raise e =>
      e = OverflowError
      ∧ fetch_news_from_api E (S fuel) api_key search_query days_back w
        = Some (Raise e, advance 1 w)
  | Ok _ =>
      ∃ res,
        fetch_news_from_api E (S fuel) api_key search_query days_back w
        = Some (res, log_event (EvHttpGet req) (advance 1 w))
        ∧ match res with
          | Ok r =>
              status r = lit "ok"
              ∧ totalResults r = length (page_articles (requests_get E req))
              ∧ articles r = page_articles (requests_get E req)
          | Raise _ => True
          end
  end.
Proof.
  cbn zeta. rewrite fetch_news_from_api_unfold.
  destruct (start_date_of E days_back w) as [day|e] eqn:Hday.
  2:{ split; [|done]. by apply date_minus_days_Raise in Hday. }
  destruct (while_true_fetch_page E
              (base (first_request E api_key search_query days_back w))
              start_state fuel (advance 1 w)) as (res & Hrun & Hres).
  rewrite Hrun.
  destruct res as [st'|e]; eexists; (split; [reflexivity|]); [|done].
  cbn in Hres. cbn. by rewrite Hres.
Qed.

(** More fuel changes nothing. *)
Lemma while_true_fetch_page_once E base_params st fuel w :
  while_true (S fuel) (fetch_page E base_params) st w
  = while_true 1 (fetch_page E base_params) st w.
Proof.
  destruct (fetch_page_spec E base_params st w) as (res & Hrun & Hres).
  cbn [while_true]. rewrite Hrun. by destruct res as [[st'|st']|e].
Qed.

Lemma fetch_news_from_api_any_fuel E fuel api_key search_query days_back w :
  fetch_news_from_api E (S fuel) api_key search_query days_back w
  = fetch_news_from_api E 1 api_key search_query days_back w.
Proof.
  rewrite !fetch_news_from_api_unfold.
  by rewrite while_true_fetch_page_once.
Qed.

(** Without fuel the loop gives no answer; a returned result tells that
    there was fuel and that the window was in range. *)
Lemma fetch_news_from_api_fuel E fuel api_key search_query days_back w r w' :
  fetch_news_from_api E fuel api_key search_query days_back w
    = Some (Ok r, w') →
  (∃ fuel', fuel = S fuel') ∧ ∃ day, start_date_of E days_back w = Ok day.
Proof.
  rewrite fetch_news_from_api_unfold.
  destruct (start_date_of E days_back w) as [day|e]; [|done].
  destruct fuel; [done|]. by eauto.
Qed.


(** A page of 5 articles with totalResults = 5: one request, count 5. *)
Example fetch_five_of_five :
  let E := sample_env (replicate 5 (sample_article (PStr (lit "T")) "x")) None in
  ∃ r w',
    fetch_news_from_api E 1 (lit "key") (lit "apple") 1 empty_world
    = Some (Ok r, w')
    ∧ totalResults r = 5
    ∧ trace w'
      = [EvHttpGet (first_request E (lit "key") (lit "apple") 1 empty_world)].
Proof. cbn zeta. do 2 eexists. split; [by vm_compute|]. by split. Qed.

(** An empty page: one request, count 0. *)
Example fetch_empty_page :
  ∃ w',
    fetch_news_from_api (sample_env [] None) 1 (lit "key") (lit "apple") 1
      empty_world
    = Some (Ok {| status := lit "ok"; totalResults := 0; articles := [] |}, w')
    ∧ length (trace w') = 1.
Proof. eexists. split; [by vm_compute|]. done. Qed.

(** A full page of 100 with 500 announced: none of the three halting
    tests fires, and the call still stops after its one request. *)
Example fetch_full_page_stops fuel :
  ∃ r w',
    fetch_news_from_api full_page_env (S fuel) (lit "key") (lit "apple") 1
      empty_world
    = Some (Ok r, w')
    ∧ totalResults r = 100
    ∧ length (trace w') = 1.
Proof.
  rewrite fetch_news_from_api_any_fuel.
  do 2 eexists. split; [by vm_compute|]. by split.
Qed.

(** ** save_dataframe_to_parquet *)

Lemma save_dataframe_to_parquet_ok E df filename w p w' :
  save_dataframe_to_parquet E df filename w = Some (Ok p, w') →
  p = filename
  ∧ is_Some (fs w' !! filename)
  ∧ (to_parquet E df filename = Written → fs w' !! filename = Some df)
  ∧ ∃ dir, trace w' = trace w ++ [EvMakedirs dir; EvToParquet filename].
Proof.
  unfold save_dataframe_to_parquet. rewrite try_except_reraise.
  unfold bind, call_os_makedirs, call_to_parquet, os_path_exists.
  destruct (os_makedirs E _); [done|].
  destruct (to_parquet E df filename) as [| |e [rows|]]; [| |done..].
  - cbn. rewrite lookup_insert_eq.
    rewrite bool_decide_eq_true_2 by eauto. intros [= <- <-]. cbn.
    rewrite lookup_insert_eq, <- app_assoc. by eauto.
  - cbn. case_bool_decide as Hex; [|done]. intros [= <- <-]. cbn.
    rewrite <- app_assoc. split_and!; [done|done|done|by eauto].
Qed.

(** ** fetch_news_data *)

Lemma datetime_now_spec E w :
  datetime_now E w = Some (Ok (clock E (ticks w)), advance 1 w).
Proof. done. Qed.

Lemma process_articles_nil E w :
  process_articles_to_dataframe E [] w = Some (Ok [], w).
Proof. done. Qed.

(** What the driver does once the key is there and the page has been
    fetched with articles in it. *)
Lemma fetch_news_data_after_fetch E fuel search_query days_back w
    api_key w1 r w2 df w3 :
  get_api_key_from_airflow E w = Some (Ok api_key, w1) →
  fetch_news_from_api E fuel api_key search_query days_back w1
    = Some (Ok r, w2) →
  process_articles_to_dataframe E (articles r) w2 = Some (Ok df, w3) →
  df ≠ [] →
  fetch_news_data E fuel search_query days_back w
  = (let filename := run_filename search_query (clock E (ticks w3)) in
     let! local_file_path :=
       save_dataframe_to_parquet E df filename in
     let! upload_success :=
       upload_to_gcs E bucket_name (lit "news_data_analysis/" ++ filename)
         local_file_path in
     if upload_success then
       os_remove local_file_path ;;
       ret (Some (lit "gs://" ++ bucket_name ++ lit "/"
                    ++ lit "news_data_analysis/" ++ filename))
     else raise UploadReportedFailure)%io (advance 1 w3).
Proof.
  intros Hkey Hfetch Hrows Hdf.
  unfold fetch_news_data. rewrite try_except_reraise.
  rewrite (bind_ok _ _ _ _ _ Hkey), (bind_ok _ _ _ _ _ Hfetch).
  destruct (articles r) as [|a rest] eqn:Harts.
  { rewrite process_articles_nil in Hrows. by injection Hrows as <- _. }
  rewrite (bind_ok _ _ _ _ _ Hrows).
  destruct df as [|row df]; [done|]. cbn [df_empty].
  by rewrite (bind_ok _ _ _ _ _ (datetime_now_spec E w3)).
Qed.

Lemma fetch_news_data_credential_failure E fuel search_query days_back w e w1 :
  get_api_key_from_airflow E w = Some (Raise e, w1) →
  fetch_news_data E fuel search_query days_back w = Some (Raise e, w1).
Proof.
  intros Hkey. unfold fetch_news_data. rewrite try_except_reraise.
  by rewrite (bind_raise _ _ _ _ _ Hkey).
Qed.

Lemma key_unusable_iff E :
  key_unusable E ↔
  match Variable_get E key_name with
  | Ok (Some v) => forallb is_space v = true
  | _ => True
  end.
Proof.
  unfold key_unusable. destruct (Variable_get E key_name) as [[v|]|]; [|done..].
  split; [|by right]. by intros [->|].
Qed.

(** C6: [get_api_key_from_airflow] raises its ValueError exactly when the
    store raises, has no value, or has an empty or white-space-only one;
    otherwise it returns the stored value stripped.  When it raises, the
    driver raises the same error, and the store lookup is the only call
    that has been made: no request has been sent. *)
Theorem get_api_key_raises_iff_unusable E w :
  let w1 := {| fs := fs w; ticks := ticks w;
               trace := trace w ++ [EvVariableGet key_name] |} in
  (key_unusable E ↔
   get_api_key_from_airflow E w
   = Some (Raise (ValueError msg_key_not_found), w1))
  ∧ (¬ key_unusable E →
     ∃ v, Variable_get E key_name = Ok (Some v)
          ∧ get_api_key_from_airflow E w = Some (Ok (strip v), w1))
  ∧ (key_unusable E →
     ∀ fuel search_query days_back,
       fetch_news_data E fuel search_query days_back w
       = Some (Raise (ValueError msg_key_not_found), w1)).
Proof.
  cbn zeta.
  assert (key_unusable E ↔
          get_api_key_from_airflow E w
          = Some (Raise (ValueError msg_key_not_found),
                  log_event (EvVariableGet key_name) w)) as Hiff.
  { rewrite key_unusable_iff, get_api_key_from_airflow_spec.
    destruct (Variable_get E key_name) as [[v|]|]; [|done..].
    destruct (forallb is_space v); split; done. }
  split; [exact Hiff|]. split.
  - rewrite key_unusable_iff, get_api_key_from_airflow_spec.
    destruct (Variable_get E key_name) as [[v|]|]; [|by intros []..].
    destruct (forallb is_space v); [by intros []|]. by eauto.
  - intros Hbad fuel search_query days_back.
    apply fetch_news_data_credential_failure. by apply Hiff.
Qed.

Lemma fetch_news_data_before_rows E fuel search_query days_back w
    api_key w1 r w2 :
  get_api_key_from_airflow E w = Some (Ok api_key, w1) →
  fetch_news_from_api E fuel api_key search_query days_back w1
    = Some (Ok r, w2) →
  fs w2 = fs w
  ∧ ∃ req, trace w2 = trace w ++ [EvVariableGet key_name; EvHttpGet req].
Proof.
  intros Hkey Hfetch.
  rewrite get_api_key_from_airflow_spec in Hkey. injection Hkey as _ <-.
  destruct (fetch_news_from_api_fuel _ _ _ _ _ _ _ _ Hfetch)
    as [[fuel' ->] [day Hday]].
  pose proof (fetch_news_from_api_spec E fuel' api_key search_query days_back
                (log_event (EvVariableGet key_name) w)) as Hspec.
  cbn zeta in Hspec. rewrite Hday in Hspec.
  destruct Hspec as (res & Hrun & _).
  rewrite Hrun in Hfetch. injection Hfetch as _ <-. cbn.
  rewrite <- app_assoc. by eauto.
Qed.

(** C8: when the page holds no article, or no article gets through the
    normalization, the driver returns None without raising; the files are
    as they were and the only calls made are the store lookup and the one
    request: nothing is written and nothing is uploaded. *)
Theorem fetch_news_data_no_data E fuel (search_query : str) (days_back : Z) w
    api_key w1 r w2 :
  get_api_key_from_airflow E w = Some (Ok api_key, w1) →
  fetch_news_from_api E fuel api_key search_query days_back w1
    = Some (Ok r, w2) →
  (articles r = []
   ∨ ∃ w3, process_articles_to_dataframe E (articles r) w2
           = Some (Ok [], w3)) →
  ∃ w',
    fetch_news_data E fuel search_query days_back w = Some (Ok None, w')
    ∧ fs w' = fs w
    ∧ filter (fun e => is_write_or_upload e) (trace w')
      = filter (fun e => is_write_or_upload e) (trace w)
    ∧ ∃ req, trace w' = trace w ++ [EvVariableGet key_name; EvHttpGet req].
Proof.
  intros Hkey Hfetch Hnone.
  destruct (fetch_news_data_before_rows _ _ _ _ _ _ _ _ _ Hkey Hfetch)
    as (Hfs & req & Htrace).
  exists w2. split; [|split; [done|split; [|by eauto]]].
  - unfold fetch_news_data. rewrite try_except_reraise.
    rewrite (bind_ok _ _ _ _ _ Hkey), (bind_ok _ _ _ _ _ Hfetch).
    destruct (articles r) as [|a rest] eqn:Harts; [done|].
    destruct Hnone as [|[w3 Hrows]]; [done|].
    rewrite (bind_ok _ _ _ _ _ Hrows). cbn [df_empty].
    unfold process_articles_to_dataframe in Hrows.
    rewrite process_loop_spec in Hrows. injection Hrows as Hdf <-.
    cbn in Hdf. apply (f_equal length) in Hdf.
    rewrite stamp_length in Hdf. rewrite Hdf. by rewrite advance_0.
  - rewrite Htrace, filter_app. cbn. by rewrite app_nil_r.
Qed.

Lemma fetch_news_data_no_data_witness :
  (∃ w',
     fetch_news_data (sample_env [] None) 1 (lit "apple") 1 empty_world
     = Some (Ok None, w')
     ∧ fs w' = fs empty_world
     ∧ filter (fun e => is_write_or_upload e) (trace w')
       = filter (fun e => is_write_or_upload e) (trace empty_world)
     ∧ ∃ req, trace w' = trace empty_world
                           ++ [EvVariableGet key_name; EvHttpGet req])
  ∧ (∃ w',
       fetch_news_data (sample_env [sample_article PNone "Second."] None) 1
         (lit "apple") 1 empty_world
       = Some (Ok None, w')
       ∧ fs w' = fs empty_world
       ∧ filter (fun e => is_write_or_upload e) (trace w')
         = filter (fun e => is_write_or_upload e) (trace empty_world)
       ∧ ∃ req, trace w' = trace empty_world
                             ++ [EvVariableGet key_name; EvHttpGet req]).
Proof.
  split.
  - eapply (fetch_news_data_no_data (sample_env [] None) 1 (lit "apple") 1
              empty_world).
    + reflexivity.
    + reflexivity.
    + left. reflexivity.
  - eapply (fetch_news_data_no_data
              (sample_env [sample_article PNone "Second."] None) 1
              (lit "apple") 1 empty_world).
    + reflexivity.
    + reflexivity.
    + right. eexists. reflexivity.
Defined.

(** C9: when the key is there, the page is fetched, rows come out of it,
    the file is written and the upload returns True, the driver removes
    the local file and returns
    [gs://snowflake-projects-test-gds/news_data_analysis/news_data_<query>_<timestamp>.parquet];
    in the world it leaves, the local file is gone. *)
Theorem fetch_news_data_success E fuel (search_query : str) (days_back : Z) w
    api_key w1 r w2 df w3 local_file_path w5 w6 :
  get_api_key_from_airflow E w = Some (Ok api_key, w1) →
  fetch_news_from_api E fuel api_key search_query days_back w1
    = Some (Ok r, w2) →
  process_articles_to_dataframe E (articles r) w2 = Some (Ok df, w3) →
  df ≠ [] →
  let filename := run_filename search_query (clock E (ticks w3)) in
  save_dataframe_to_parquet E df filename (advance 1 w3)
    = Some (Ok local_file_path, w5) →
  upload_to_gcs E bucket_name (lit "news_data_analysis/" ++ filename)
    local_file_path w5 = Some (Ok true, w6) →
  ∃ w7,
    fetch_news_data E fuel search_query days_back w
    = Some (Ok (Some (storage_uri filename)), w7)
    ∧ storage_uri filename
      = lit "gs://" ++ lit "snowflake-projects-test-gds" ++ lit "/"
          ++ lit "news_data_analysis" ++ lit "/" ++ lit "news_data_"
          ++ search_query ++ lit "_"
          ++ strftime_compact (clock E (ticks w3)) ++ lit ".parquet"
    ∧ fs w7 !! filename = None
    ∧ trace w7 = trace w6 ++ [EvRemove filename].
Proof.
  intros Hkey Hfetch Hrows Hdf filename Hsave Hupload.
  rewrite (fetch_news_data_after_fetch _ _ _ _ _ _ _ _ _ _ _
             Hkey Hfetch Hrows Hdf).
  cbn zeta. fold filename.
  rewrite (bind_ok _ _ _ _ _ Hsave), (bind_ok _ _ _ _ _ Hupload).
  apply save_dataframe_to_parquet_ok in Hsave as (-> & [old Hold] & _ & _).
  apply upload_to_gcs_world in Hupload as [Hfs _].
  unfold bind, os_remove. rewrite Hfs, Hold.
  eexists. split; [reflexivity|]. split; [reflexivity|]. cbn.
  by rewrite lookup_delete_eq.
Qed.

Lemma fetch_news_data_success_witness :
  ∃ w6 w7,
    fetch_news_data (sample_env sample_articles None) 1 (lit "apple") 1
      empty_world
    = Some (Ok (Some (storage_uri sample_filename)), w7)
    ∧ storage_uri sample_filename
      = lit "gs://" ++ lit "snowflake-projects-test-gds" ++ lit "/"
          ++ lit "news_data_analysis" ++ lit "/" ++ lit "news_data_"
          ++ lit "apple" ++ lit "_"
          ++ lit "20251003_120000" ++ lit ".parquet"
    ∧ fs w7 !! sample_filename = None
    ∧ trace w7 = trace w6 ++ [EvRemove sample_filename].
Proof.
  eexists.
  eapply (fetch_news_data_success (sample_env sample_articles None) 1
            (lit "apple") 1 empty_world).
  - reflexivity.
  - reflexivity.
  - reflexivity.
  - discriminate.
  - reflexivity.
  - reflexivity.
Defined.

(** C10: when the file has been written and the upload raises, the
    driver raises the same exception and stops in the world the upload
    left: the local file is still there, and no removal was asked for. *)
Theorem fetch_news_data_keeps_file_when_upload_raises E fuel
    (search_query : str) (days_back : Z) w
    api_key w1 r w2 df w3 local_file_path w5 e w6 :
  get_api_key_from_airflow E w = Some (Ok api_key, w1) →
  fetch_news_from_api E fuel api_key search_query days_back w1
    = Some (Ok r, w2) →
  process_articles_to_dataframe E (articles r) w2 = Some (Ok df, w3) →
  df ≠ [] →
  let filename := run_filename search_query (clock E (ticks w3)) in
  let blob := lit "news_data_analysis/" ++ filename in
  save_dataframe_to_parquet E df filename (advance 1 w3)
    = Some (Ok local_file_path, w5) →
  upload_to_gcs E bucket_name blob local_file_path w5
    = Some (Raise e, w6) →
  fetch_news_data E fuel search_query days_back w = Some (Raise e, w6)
  ∧ is_Some (fs w6 !! filename)
  ∧ fs w6 = fs w5
  ∧ (to_parquet E df filename = Written → fs w6 !! filename = Some df)
  ∧ (trace w6 = trace w5 ++ [EvStorageClient]
     ∨ trace w6
       = trace w5 ++ [EvStorageClient; EvUpload bucket_name blob filename]).
Proof.
  intros Hkey Hfetch Hrows Hdf filename blob Hsave Hupload.
  rewrite (fetch_news_data_after_fetch _ _ _ _ _ _ _ _ _ _ _
             Hkey Hfetch Hrows Hdf).
  cbn zeta. fold filename. fold blob.
  rewrite (bind_ok _ _ _ _ _ Hsave), (bind_raise _ _ _ _ _ Hupload).
  apply save_dataframe_to_parquet_ok in Hsave as (-> & Hold & Hwritten & _).
  apply upload_to_gcs_world in Hupload as [Hfs Htrace].
  rewrite Hfs. by split_and!.
Qed.

Lemma fetch_news_data_keeps_file_when_upload_raises_witness :
  let E := sample_env sample_articles (Some (External (lit "Forbidden"))) in
  ∃ w5 w6 df,
    fetch_news_data E 1 (lit "apple") 1 empty_world
    = Some (Raise (External (lit "Forbidden")), w6)
    ∧ is_Some (fs w6 !! sample_filename)
    ∧ fs w6 = fs w5
    ∧ (to_parquet E df sample_filename = Written →
       fs w6 !! sample_filename = Some df)
    ∧ (trace w6 = trace w5 ++ [EvStorageClient]
       ∨ trace w6
         = trace w5
             ++ [EvStorageClient;
                 EvUpload bucket_name
                   (lit "news_data_analysis/" ++ sample_filename)
                   sample_filename]).
Proof.
  cbn zeta. do 3 eexists.
  eapply (fetch_news_data_keeps_file_when_upload_raises
            (sample_env sample_articles (Some (External (lit "Forbidden"))))
            1 (lit "apple") 1 empty_world).
  - reflexivity.
  - reflexivity.
  - reflexivity.
  - discriminate.
  - reflexivity.
  - reflexivity.
Defined.

(** * Further properties *)

(** ** strip *)

Lemma lstrip_decompose (s : str) :
  ∃ pre, s = pre ++ lstrip s ∧ forallb is_space pre = true.
Proof.
  induction s as [|c t (pre & Ht & Hpre)]; [by exists []|]. cbn.
  destruct (is_space c) eqn:Hc; [|by exists []].
  exists (c :: pre). cbn. rewrite Hc, Hpre. by rewrite <- Ht.
Qed.

Lemma lstrip_start (s : str) : starts_with_space (lstrip s) = false.
Proof.
  induction s as [|c t IH]; [done|]. cbn.
  destruct (is_space c) eqn:Hc; [done|]. cbn. by rewrite Hc.
Qed.

Lemma lstrip_snoc (u : str) c :
  is_space c = false → lstrip (u ++ [c]) = lstrip u ++ [c].
Proof.
  intros Hc. induction u as [|x u IH]; cbn; [by rewrite Hc|].
  by destruct (is_space x).
Qed.

Lemma rstrip_cons c (t : str) :
  is_space c = false → rstrip (c :: t) = c :: rstrip t.
Proof.
  intros Hc. unfold rstrip. cbn [rev].
  by rewrite lstrip_snoc, rev_app_distr.
Qed.

Lemma strip_trimmed (s : str) : trimmed (strip s).
Proof.
  unfold trimmed, strip. split.
  - pose proof (lstrip_start s) as Hs.
    destruct (lstrip s) as [|c t]; [done|]. cbn in Hs.
    by rewrite rstrip_cons.
  - unfold rstrip. rewrite rev_involutive. apply lstrip_start.
Qed.

(** [strip] removes white space at both ends and nothing else. *)
Lemma strip_decompose (s : str) :
  ∃ pre post,
    s = pre ++ strip s ++ post
    ∧ forallb is_space pre = true ∧ forallb is_space post = true.
Proof.
  destruct (lstrip_decompose s) as (pre & Hs & Hpre).
  destruct (lstrip_decompose (rev (lstrip s))) as (tsop & Hr & Hpost).
  exists pre, (rev tsop). split; [|split; [done|by rewrite forallb_rev]].
  unfold strip, rstrip. rewrite <- rev_app_distr, <- Hr, rev_involutive.
  exact Hs.
Qed.

(** ** clean_article_content, further *)

Lemma rfind_from_hit c (s : str) k :
  (0 ≤ k)%Z → (0 ≤ rfind_from c s k)%Z →
  s !! Z.to_nat (rfind_from c s k - k) = Some c.
Proof.
  revert k. induction s as [|x t IH]; intros k Hk; cbn [rfind_from]; [lia|].
  destruct (Z.leb_spec 0 (rfind_from c t (k + 1))) as [Hr|Hr].
  - intros _. specialize (IH (k + 1)%Z ltac:(lia) Hr).
    destruct (rfind_from_range c t (k + 1)) as [Hno|Hin]; [lia|].
    replace (Z.to_nat (rfind_from c t (k + 1) - k))
      with (S (Z.to_nat (rfind_from c t (k + 1) - (k + 1)))) by lia.
    exact IH.
  - destruct (N.eqb_spec x c) as [->|]; [|lia].
    intros _. by rewrite Z.sub_diag.
Qed.

Lemma rfind_hit c (s : str) :
  (0 ≤ rfind c s)%Z → s !! Z.to_nat (rfind c s) = Some c.
Proof.
  intros H. unfold rfind in *.
  pose proof (rfind_from_hit c s 0 ltac:(lia) H) as Hhit.
  by rewrite Z.sub_0_r in Hhit.
Qed.

(** The index [rfind] answers lies below every bound above which the
    character does not occur. *)
Lemma rfind_below c (s : str) (n : nat) :
  (∀ j, n ≤ j → s !! j ≠ Some c) → (rfind c s < Z.of_nat n)%Z.
Proof.
  intros Hno. destruct (Z.ltb_spec (rfind c s) (Z.of_nat n)); [done|].
  destruct (Hno (Z.to_nat (rfind c s))); [lia|]. apply rfind_hit. lia.
Qed.

Lemma rfind_range c (s : str) :
  (-1 ≤ rfind c s < Z.of_nat (length s))%Z.
Proof. unfold rfind. destruct (rfind_from_range c s 0); lia. Qed.

(** X1: content whose trimmed form has at most 200 characters comes back
    as that trimmed form: the input without the white space at its two
    ends. *)
Theorem short_content_is_only_trimmed (s : str) :
  length (strip s) ≤ length_bound →
  clean_article_content (PStr s) = Ok (strip s)
  ∧ trimmed (strip s)
  ∧ ∃ pre post,
      s = pre ++ strip s ++ post
      ∧ forallb is_space pre = true ∧ forallb is_space post = true.
Proof.
  intros Hlen. split; [by apply clean_article_content_short|].
  split; [apply strip_trimmed|apply strip_decompose].
Qed.

Lemma short_content_is_only_trimmed_witness :
  clean_article_content (PStr (lit "  Hello. World  "))
  = Ok (strip (lit "  Hello. World  "))
  ∧ trimmed (strip (lit "  Hello. World  "))
  ∧ ∃ pre post,
      lit "  Hello. World  " = pre ++ strip (lit "  Hello. World  ") ++ post
      ∧ forallb is_space pre = true ∧ forallb is_space post = true.
Proof.
  apply (short_content_is_only_trimmed (lit "  Hello. World  ")).
  vm_compute. lia.
Defined.

(** X2: content longer than 200 characters after trimming, with no
    period above index 100, is cut to its first 199 characters. *)
Theorem long_content_without_late_period_is_cut_at_199 (s : str) :
  length_bound < length (strip s) →
  (∀ j, 100 < j → strip s !! j ≠ Some period) →
  clean_article_content (PStr s) = Ok (take 199 (strip s))
  ∧ length (take 199 (strip s)) = 199.
Proof.
  intros Hlen Hno. rewrite clean_article_content_long by done.
  pose proof (rfind_below period (strip s) 101) as Hr.
  destruct (Z.ltb_spec 100 (rfind period (strip s))) as [Hgt|_].
  { specialize (Hr ltac:(intros j Hj; apply Hno; lia)). lia. }
  unfold length_bound in Hlen. split; [done|]. rewrite length_take. lia.
Qed.

Lemma long_content_without_late_period_is_cut_at_199_witness :
  clean_article_content (PStr early_sentence)
  = Ok (take 199 (strip early_sentence))
  ∧ length (take 199 (strip early_sentence)) = 199.
Proof.
  apply (long_content_without_late_period_is_cut_at_199 early_sentence).
  - vm_compute. lia.
  - intros j Hj. destruct (decide (j < 250)) as [Hlt|Hge].
    + do 101 (destruct j as [|j]; [lia|]).
      do 149 (destruct j as [|j]; [discriminate|]). simpl in Hlt. lia.
    + rewrite lookup_ge_None_2; [done|]. vm_compute. lia.
Defined.

(** X3: when no period stands at index 200 or beyond in the trimmed
    content, the result has at most 200 characters. *)
Theorem content_without_far_period_is_bounded (s t : str) :
  (∀ j, length_bound ≤ j → strip s !! j ≠ Some period) →
  clean_article_content (PStr s) = Ok t →
  length t ≤ length_bound.
Proof.
  intros Hno. apply clean_article_content_bounded.
  by apply rfind_below.
Qed.

Lemma content_without_far_period_is_bounded_witness :
  length (take 181 (strip two_sentences)) ≤ length_bound.
Proof.
  apply (content_without_far_period_is_bounded two_sentences).
  - intros j Hj. unfold length_bound in Hj.
    destruct (decide (j < 251)) as [Hlt|Hge].
    + do 200 (destruct j as [|j]; [lia|]).
      do 51 (destruct j as [|j]; [discriminate|]). simpl in Hlt. lia.
    + rewrite lookup_ge_None_2; [done|]. vm_compute. lia.
  - by vm_compute.
Defined.

Lemma slice_to_prefix (s : str) n : (0 ≤ n)%Z → slice_to s n `prefix_of` s.
Proof.
  intros Hn. unfold slice_to. destruct (Z.leb_spec 0 n); [|lia].
  apply prefix_take.
Qed.

Lemma clean_article_content_str (s : str) :
  ∃ t, clean_article_content (PStr s) = Ok t ∧ t `prefix_of` strip s.
Proof.
  destruct (decide (length (strip s) ≤ length_bound)) as [Hle|Hgt].
  - exists (strip s). by rewrite clean_article_content_short.
  - rewrite clean_article_content_long by lia.
    pose proof (rfind_range period (strip s)).
    destruct (100 <? _)%Z; eexists; (split; [done|]);
      apply slice_to_prefix; lia.
Qed.

(** X4: on a str the function never raises, and what it returns is a
    prefix of the trimmed content, itself the input without the white
    space at its ends: nothing is added or reordered. *)
Theorem clean_article_content_returns_prefix (s : str) :
  ∃ t pre post,
    clean_article_content (PStr s) = Ok t
    ∧ t `prefix_of` strip s
    ∧ s = pre ++ strip s ++ post
    ∧ forallb is_space pre = true ∧ forallb is_space post = true.
Proof.
  destruct (clean_article_content_str s) as (t & Hrun & Hpre).
  destruct (strip_decompose s) as (pre & post & Hs & Hp & Hq).
  by exists t, pre, post.
Qed.

(** X5: content longer than 200 characters after trimming is never cut
    below 102 characters: the result either ends with a period that
    stood above index 100, or has exactly 199 characters. *)
Theorem long_content_keeps_102_characters (s : str) :
  length_bound < length (strip s) →
  ∃ t, clean_article_content (PStr s) = Ok t
       ∧ 102 ≤ length t
       ∧ (last t = Some period ∨ length t = 199).
Proof.
  intros Hlen. rewrite clean_article_content_long by done.
  unfold length_bound in Hlen.
  pose proof (rfind_range period (strip s)) as Hrange.
  destruct (Z.ltb_spec 100 (rfind period (strip s))) as [Hgt|Hle].
  - eexists. split; [done|].
    replace (rfind period (strip s) + 1)%Z
      with (Z.of_nat (S (Z.to_nat (rfind period (strip s))))) by lia.
    rewrite slice_to_nat, length_take. split; [lia|]. left.
    rewrite last_lookup, length_take, Nat.min_l by lia. cbn.
    rewrite lookup_take_lt by lia. apply rfind_hit. lia.
  - eexists. split; [done|]. cbn -[take]. rewrite length_take. lia.
Qed.

Lemma long_content_keeps_102_characters_witness :
  ∃ t, clean_article_content (PStr two_sentences) = Ok t
       ∧ 102 ≤ length t
       ∧ (last t = Some period ∨ length t = 199).
Proof.
  apply (long_content_keeps_102_characters two_sentences).
  vm_compute. lia.
Defined.

(** X6: the function raises exactly on the truthy values that are not a
    str (numbers other than zero, True, non-empty lists and dicts), and
    then with AttributeError; every falsy value (None, False, 0, "", [],
    {}) gives the empty string. *)
Theorem clean_article_content_raises_iff (v : pyval) :
  ((∃ e, clean_article_content v = Raise e)
   ↔ truthy v = true ∧ is_str v = false)
  ∧ (∀ e, clean_article_content v = Raise e → e = AttributeError)
  ∧ (truthy v = false → clean_article_content v = Ok []).
Proof.
  unfold clean_article_content.
  destruct (truthy v) eqn:Ht; cbn [negb].
  2:{ split; [|done]. split; [by intros [e ?]|by intros [? _]]. }
  destruct v as [|b|z|f|s|l|items]; cbn [py_strip rbind is_str];
    try (split; [split; [done|by eauto]|split; [by intros e [= <-]|done]]).
  destruct (clean_article_content_str s) as (t & Hrun & _).
  unfold clean_article_content in Hrun. rewrite Ht in Hrun.
  cbn [negb py_strip rbind] in Hrun. rewrite Hrun.
  split; [split; [by intros [e ?]|by intros [_ ?]]|done].
Qed.

(** ** extract_fields and the rows *)

Lemma clean_article_content_outcome (v : pyval) :
  match clean_article_content v with
  | Ok t => negb (truthy v) || is_str v = true
  | Raise e => e = AttributeError ∧ truthy v = true ∧ is_str v = false
  end.
Proof.
  unfold clean_article_content. destruct (truthy v) eqn:Ht; cbn [negb]; [|done].
  destruct v as [|b|z|f|s|l|items]; cbn [py_strip rbind is_str orb]; try done.
  destruct (clean_article_content_str s) as (t & Hrun & _).
  unfold clean_article_content in Hrun. rewrite Ht in Hrun.
  cbn [negb py_strip rbind] in Hrun. by rewrite Hrun.
Qed.

(** The [try] body on a dict, with each [get] read off the items. *)
Lemma extract_fields_dict items :
  extract_fields (PDict items)
  = (let! news_title := py_strip (get_or items "title" empty_str) in
     let! source_name :=
       (if truthy (get_or items "source" PNone)
        then py_get (get_or items "source" (PDict [])) (lit "name") empty_str
        else Ok empty_str) in
     let! author :=
       (if truthy (get_or items "author" PNone)
        then py_strip (get_or items "author" empty_str)
        else Ok []) in
     let! cleaned_content :=
       clean_article_content (get_or items "content" empty_str) in
     Ok {| news_title := news_title;
           f_timestamp := get_or items "publishedAt" empty_str;
           f_url_source := get_or items "url" empty_str;
           source_name := source_name; f_author := author;
           url_to_image := get_or items "urlToImage" empty_str;
           cleaned_content := cleaned_content |})%result.
Proof.
  unfold extract_fields, get_or. cbn [py_get rbind].
  destruct (py_strip _); [|done]. cbn [rbind].
  destruct (truthy (from_option id PNone _)); [|done]. done.
Qed.

(** A key whose value is truthy is there, so the default does not
    matter. *)
Lemma get_or_truthy items key d :
  truthy (get_or items key PNone) = true →
  get_or items key d = get_or items key PNone.
Proof. unfold get_or. by destruct (dict_lookup _ items). Qed.

Lemma extract_fields_not_dict article :
  is_dict article = false → extract_fields article = Raise AttributeError.
Proof. by destruct article. Qed.

Lemma source_outcome items :
  match (if truthy (get_or items "source" PNone)
         then py_get (get_or items "source" (PDict [])) (lit "name") empty_str
         else Ok empty_str) with
  | Ok _ =>
      negb (truthy (get_or items "source" PNone))
      || is_dict (get_or items "source" PNone) = true
  | Raise _ =>
      negb (truthy (get_or items "source" PNone))
      || is_dict (get_or items "source" PNone) = false
  end.
Proof.
  pose proof (get_or_truthy items "source" (PDict [])) as Hsrc.
  destruct (truthy (get_or items "source" PNone)); [|done].
  rewrite Hsrc by done. by destruct (get_or items "source" PNone).
Qed.

Lemma author_outcome items :
  match (if truthy (get_or items "author" PNone)
         then py_strip (get_or items "author" empty_str)
         else Ok []) with
  | Ok t =>
      (negb (truthy (get_or items "author" PNone))
       || is_str (get_or items "author" PNone) = true)
      ∧ trimmed t
  | Raise _ =>
      negb (truthy (get_or items "author" PNone))
      || is_str (get_or items "author" PNone) = false
  end.
Proof.
  pose proof (get_or_truthy items "author" empty_str) as Hau.
  destruct (truthy (get_or items "author" PNone)); [|done].
  rewrite Hau by done.
  destruct (get_or items "author" PNone); cbn; try done.
  split; [done|apply strip_trimmed].
Qed.

Lemma survives_dict items :
  survives (PDict items) = article_kept (PDict items).
Proof.
  unfold survives, article_kept. rewrite extract_fields_dict.
  pose proof (source_outcome items) as Hs.
  pose proof (author_outcome items) as Ha.
  pose proof (clean_article_content_outcome
                (get_or items "content" empty_str)) as Hc.
  destruct (get_or items "title" empty_str) as [| | | |t| |];
    cbn [py_strip rbind is_str andb]; try done.
  destruct (if truthy (get_or items "source" PNone) then _ else _);
    rewrite Hs; cbn [rbind andb]; [|done].
  destruct (if truthy (get_or items "author" PNone) then _ else _);
    [destruct Ha as [Ha _]|]; rewrite Ha; cbn [rbind andb]; [|done].
  destruct (clean_article_content _); cbn [rbind]; [done|].
  destruct Hc as (_ & -> & ->). done.
Qed.

(** X7: the loop keeps an article exactly when it is a dict whose title
    is a str (or missing), whose source is falsy or a dict, and whose
    author and content are falsy or a str; every other element of the
    list is skipped. *)
Theorem article_survives_iff_kept (article : pyval) :
  survives article = article_kept article.
Proof.
  destruct (is_dict article) eqn:Hd.
  - destruct article; try done. apply survives_dict.
  - unfold survives. rewrite extract_fields_not_dict by done.
    by destruct article.
Qed.

Lemma prefix_starts_with_space (t u : str) :
  t `prefix_of` u → starts_with_space u = false → starts_with_space t = false.
Proof. intros [k ->]. by destruct t. Qed.

Lemma extract_fields_trimmed article f :
  extract_fields article = Ok f →
  trimmed (news_title f) ∧ trimmed (f_author f)
  ∧ starts_with_space (cleaned_content f) = false.
Proof.
  destruct article as [| | | | | |items]; try done.
  rewrite extract_fields_dict.
  pose proof (author_outcome items) as Ha.
  destruct (get_or items "title" empty_str) as [| | | |t| |];
    cbn [py_strip rbind]; try done.
  destruct (if truthy (get_or items "source" PNone) then _ else _);
    cbn [rbind]; [|done].
  destruct (if truthy (get_or items "author" PNone) then _ else _);
    cbn [rbind]; [|done].
  destruct (clean_article_content _) as [c|] eqn:Hc; cbn [rbind]; [|done].
  intros [= <-]. cbn. split; [apply strip_trimmed|]. split; [apply Ha|].
  destruct (get_or items "content" empty_str) as [| | | |s| |];
    try (unfold clean_article_content in Hc; cbn in Hc;
         repeat case_match; by simplify_eq).
  destruct (clean_article_content_str s) as (c' & Hrun & Hpre).
  rewrite Hrun in Hc. injection Hc as <-.
  apply (prefix_starts_with_space _ _ Hpre), strip_trimmed.
Qed.

(** X8: in every row the loop builds, newsTitle and author carry no
    white space at either end, and content none at its start. *)
Theorem rows_are_trimmed E (articles : list pyval) w :
  ∃ df w',
    process_articles_to_dataframe E articles w = Some (Ok df, w')
    ∧ Forall (fun row => trimmed (newsTitle row) ∧ trimmed (author row)
                         ∧ starts_with_space (content row) = false) df.
Proof.
  unfold process_articles_to_dataframe. rewrite process_loop_spec.
  do 2 eexists. split; [reflexivity|]. cbn [app].
  apply Forall_lookup_2. intros i row Hrow.
  apply (f_equal (fmap row_fields)) in Hrow.
  rewrite <- list_lookup_fmap, stamp_fields in Hrow. cbn in Hrow.
  pose proof (survivors_extracted articles) as Hall.
  destruct (Forall2_lookup_r _ _ _ _ _ Hall Hrow) as (a & _ & Ha).
  apply extract_fields_trimmed in Ha. exact Ha.
Qed.

(** X9: timestamp, url_source and urlToImage of a kept article are the
    values under publishedAt, url and urlToImage as they came, whatever
    their type, and the empty string for a missing key; source is the
    value under [name] of the source dict, the empty string when that key
    or the whole source is missing or falsy. *)
Theorem extract_fields_passes_values_through items f :
  extract_fields (PDict items) = Ok f →
  f_timestamp f = get_or items "publishedAt" empty_str
  ∧ f_url_source f = get_or items "url" empty_str
  ∧ url_to_image f = get_or items "urlToImage" empty_str
  ∧ source_name f
    = match get_or items "source" PNone with
      | PDict src => get_or src "name" empty_str
      | _ => empty_str
      end.
Proof.
  rewrite extract_fields_dict.
  pose proof (get_or_truthy items "source" (PDict [])) as Hsrc.
  destruct (py_strip _); cbn [rbind]; [|done].
  destruct (truthy (get_or items "source" PNone)) eqn:Ht.
  - rewrite Hsrc by done.
    destruct (get_or items "source" PNone) as [| | | | | |src];
      cbn [py_get rbind]; try done.
    destruct (if truthy _ then _ else _); cbn [rbind]; [|done].
    destruct (clean_article_content _); cbn [rbind]; [|done].
    intros [= <-]. split_and!; reflexivity.
  - cbn [rbind].
    destruct (if truthy _ then _ else _); cbn [rbind]; [|done].
    destruct (clean_article_content _); cbn [rbind]; [|done].
    intros [= <-]. split_and!; try reflexivity.
    cbn [source_name].
    destruct (get_or items "source" PNone) as [| | | | | |[|kv src]];
      try reflexivity.
    discriminate Ht.
Qed.

Lemma extract_fields_passes_values_through_witness :
  let items :=
    [(lit "title", PStr (lit "T")); (lit "publishedAt", PInt 1759478400);
     (lit "url", PNone);
     (lit "source", PDict [(lit "id", PStr (lit "wired"))])] in
  let f := {| news_title := lit "T"; f_timestamp := PInt 1759478400;
              f_url_source := PNone; source_name := empty_str;
              f_author := []; url_to_image := empty_str;
              cleaned_content := [] |} in
  f_timestamp f = get_or items "publishedAt" empty_str
  ∧ f_url_source f = get_or items "url" empty_str
  ∧ url_to_image f = get_or items "urlToImage" empty_str
  ∧ source_name f
    = match get_or items "source" PNone with
      | PDict src => get_or src "name" empty_str
      | _ => empty_str
      end.
Proof.
  cbn zeta. apply extract_fields_passes_values_through. reflexivity.
Defined.

Lemma stamp_app E t0 (l1 l2 : list article_fields) :
  stamp E t0 (l1 ++ l2) = stamp E t0 l1 ++ stamp E (t0 + length l1) l2.
Proof.
  revert t0. induction l1 as [|f l1 IH]; intros t0.
  - cbn. by rewrite Nat.add_0_r.
  - cbn [app length]. rewrite !stamp_cons, IH. cbn.
    by rewrite Nat.add_succ_r.
Qed.

(** X10: normalizing a list in two parts, the second from the world the
    first has left, gives the same frame and the same world as
    normalizing it at once. *)
Theorem process_articles_in_two_parts E (l1 l2 : list pyval) w :
  ∃ df1 w1 df2 w2,
    process_articles_to_dataframe E l1 w = Some (Ok df1, w1)
    ∧ process_articles_to_dataframe E l2 w1 = Some (Ok df2, w2)
    ∧ process_articles_to_dataframe E (l1 ++ l2) w
      = Some (Ok (df1 ++ df2), w2).
Proof.
  unfold process_articles_to_dataframe. rewrite !process_loop_spec.
  do 4 eexists. split; [reflexivity|]. rewrite process_loop_spec.
  split; [reflexivity|]. cbn [app].
  rewrite omap_app, stamp_app, length_app, advance_advance. cbn.
  replace (ticks w + length (omap fields_or_skip l1))
    with (length (omap fields_or_skip l1) + ticks w) by lia.
  replace (length (omap fields_or_skip l1) + length (omap fields_or_skip l2))
    with (length (omap fields_or_skip l2) + length (omap fields_or_skip l1))
    by lia.
  done.
Qed.

(** ** fetch_news_from_api, further *)

(** With the window in range, the call is one pass of the loop body from
    the initial variables. *)
Lemma fetch_news_from_api_by_page E fuel api_key search_query days_back w
    day :
  start_date_of E days_back w = Ok day →
  fetch_news_from_api E (S fuel) api_key search_query days_back w
  = match fetch_page E
            (base (first_request E api_key search_query days_back w))
            start_state (advance 1 w) with
    | Some (Ok (Break st), w') =>
        Some (Ok {| status := lit "ok";
                    totalResults := length (all_articles st);
                    articles := all_articles st |}, w')
    | Some (Ok (Continue _), _) => None
    | Some (Raise e, w') => Some (Raise e, w')
    | None => None
    end.
Proof.
  intros Hday. rewrite fetch_news_from_api_any_fuel.
  rewrite fetch_news_from_api_unfold, Hday. cbn [while_true].
  by destruct (fetch_page E _ start_state (advance 1 w))
    as [[[[st|st]|e] w']|].
Qed.

Lemma status_passes code :
  (code < 400 ∨ 600 ≤ code)%Z → ((400 <=? code) && (code <? 600))%Z = false.
Proof.
  intros H. destruct (Z.leb_spec 400 code), (Z.ltb_spec code 600); try lia;
    done.
Qed.

Ltac first_page E api_key search_query days_back w Hwindow :=
  rewrite (fetch_news_from_api_by_page _ _ _ _ _ _ _ Hwindow);
  unfold fetch_page, bind, call_requests_get;
  change (with_page _ (page start_state))
    with (first_request E api_key search_query days_back w).

(** X11: with the window in range, when the request itself raises
    (time-out, connection error), or the body of a response is not JSON,
    the call raises that exception after its one request. *)
Theorem fetch_propagates_transport_failure E fuel
    (api_key search_query : str) (days_back : Z) w e day :
  let req := first_request E api_key search_query days_back w in
  start_date_of E days_back w = Ok day →
  (requests_get E req = NoReply e
   ∨ ∃ code, requests_get E req = Reply code (Raise e)
             ∧ (code < 400 ∨ 600 ≤ code)%Z) →
  fetch_news_from_api E (S fuel) api_key search_query days_back w
  = Some (Raise e, log_event (EvHttpGet req) (advance 1 w)).
Proof.
  cbn zeta. intros Hwindow [Hreply|(code & Hreply & Hcode)];
    first_page E api_key search_query days_back w Hwindow; rewrite Hreply;
    [done|].
  unfold raise_for_status. by rewrite (status_passes code Hcode).
Qed.

Lemma fetch_propagates_transport_failure_witness :
  fetch_news_from_api (reply_env (NoReply (External (lit "Timeout")))) 1
    (lit "key") (lit "apple") 1 empty_world
  = Some (Raise (External (lit "Timeout")),
          log_event
            (EvHttpGet (first_request
                          (reply_env (NoReply (External (lit "Timeout"))))
                          (lit "key") (lit "apple") 1 empty_world))
            (advance 1 empty_world)).
Proof.
  eapply (fetch_propagates_transport_failure
            (reply_env (NoReply (External (lit "Timeout")))) 0).
  - reflexivity.
  - left. reflexivity.
Defined.

(** X12: with the window in range, a response with a status code from
    400 to 599 makes the call raise HTTPError, whatever its body. *)
Theorem fetch_raises_on_error_status E fuel
    (api_key search_query : str) (days_back : Z) w code body day :
  let req := first_request E api_key search_query days_back w in
  start_date_of E days_back w = Ok day →
  requests_get E req = Reply code body →
  (400 ≤ code < 600)%Z →
  fetch_news_from_api E (S fuel) api_key search_query days_back w
  = Some (Raise (HTTPError code), log_event (EvHttpGet req) (advance 1 w)).
Proof.
  cbn zeta. intros Hwindow Hreply Hcode.
  first_page E api_key search_query days_back w Hwindow. rewrite Hreply.
  unfold raise_for_status.
  destruct (Z.leb_spec 400 code), (Z.ltb_spec code 600); try lia; done.
Qed.

Lemma fetch_raises_on_error_status_witness :
  fetch_news_from_api (reply_env (Reply 429 (Ok (sample_page [])))) 1
    (lit "key") (lit "apple") 1 empty_world
  = Some (Raise (HTTPError 429),
          log_event
            (EvHttpGet (first_request
                          (reply_env (Reply 429 (Ok (sample_page []))))
                          (lit "key") (lit "apple") 1 empty_world))
            (advance 1 empty_world)).
Proof.
  eapply (fetch_raises_on_error_status
            (reply_env (Reply 429 (Ok (sample_page [])))) 0
            (lit "key") (lit "apple") 1 empty_world 429
            (Ok (sample_page []))).
  - reflexivity.
  - reflexivity.
  - lia.
Defined.

Ltac fold_get_or :=
  repeat match goal with
  | |- context [from_option id ?d (dict_lookup (lit ?k) ?its)] =>
      change (from_option id d (dict_lookup (lit k) its))
        with (get_or its k d)
  end.

Ltac read_page code Hreply Hcode :=
  rewrite Hreply; unfold raise_for_status;
  rewrite (status_passes code Hcode);
  cbn [andb ret response_json lift py_get];
  fold_get_or.

(** X13: with the window in range, a JSON object whose status is not the
    string "ok" (or is missing) makes the call raise the error that carries the value under
    [message], or "Unknown error" when there is none; the articles are
    not looked at. *)
Theorem fetch_raises_on_api_error E fuel
    (api_key search_query : str) (days_back : Z) w code items day :
  let req := first_request E api_key search_query days_back w in
  start_date_of E days_back w = Ok day →
  requests_get E req = Reply code (Ok (PDict items)) →
  (code < 400 ∨ 600 ≤ code)%Z →
  get_or items "status" PNone ≠ PStr (lit "ok") →
  fetch_news_from_api E (S fuel) api_key search_query days_back w
  = Some (Raise (ApiStatusError
                   (get_or items "message" (PStr (lit "Unknown error")))),
          log_event (EvHttpGet req) (advance 1 w)).
Proof.
  cbn zeta. intros Hwindow Hreply Hcode Hstatus.
  first_page E api_key search_query days_back w Hwindow.
  read_page code Hreply Hcode.
  assert (py_ne_str (get_or items "status" PNone) (lit "ok") = true) as ->.
  { destruct (get_or items "status" PNone) as [| | | |t| |]; try done.
    cbn. case_bool_decide; [by subst|done]. }
  cbn [lift ret py_get]. by fold_get_or.
Qed.

Lemma fetch_raises_on_api_error_witness :
  let page := [(lit "status", PStr (lit "error"));
               (lit "code", PStr (lit "apiKeyInvalid"));
               (lit "message", PStr (lit "Your API key is invalid."))] in
  let E := reply_env (Reply 200 (Ok (PDict page))) in
  fetch_news_from_api E 1 (lit "key") (lit "apple") 1 empty_world
  = Some (Raise (ApiStatusError
                   (get_or page "message" (PStr (lit "Unknown error")))),
          log_event
            (EvHttpGet (first_request E (lit "key") (lit "apple") 1
                          empty_world))
            (advance 1 empty_world)).
Proof.
  cbn zeta.
  eapply (fetch_raises_on_api_error
            (reply_env (Reply 200 (Ok (PDict
               [(lit "status", PStr (lit "error"));
                (lit "code", PStr (lit "apiKeyInvalid"));
                (lit "message", PStr (lit "Your API key is invalid."))]))))
            0 (lit "key") (lit "apple") 1 empty_world 200).
  - reflexivity.
  - reflexivity.
  - lia.
  - discriminate.
Defined.

Lemma py_int_ge_number n v :
  is_number v = true → ∃ b, py_int_ge n v = Ok b.
Proof. destruct v as [|b|z|[| |q]| | |]; try done; by eexists. Qed.

Lemma py_int_ge_other n v :
  is_number v = false → py_int_ge n v = Raise TypeError.
Proof. by destruct v as [|b|z|[| |q]| | |]. Qed.

(** X14: with the window in range, a response outside the error codes
    whose JSON object has status
    "ok" and a list under [articles] makes the call return that list with
    its length as the count, provided the list is empty or totalResults
    is a number (or missing); the value of totalResults has no other
    effect. *)
Theorem fetch_returns_the_page E fuel
    (api_key search_query : str) (days_back : Z) w code items l day :
  let req := first_request E api_key search_query days_back w in
  start_date_of E days_back w = Ok day →
  requests_get E req = Reply code (Ok (PDict items)) →
  (code < 400 ∨ 600 ≤ code)%Z →
  get_or items "status" PNone = PStr (lit "ok") →
  get_or items "articles" (PList []) = PList l →
  l = [] ∨ is_number (get_or items "totalResults" (PInt 0)) = true →
  fetch_news_from_api E (S fuel) api_key search_query days_back w
  = Some (Ok {| status := lit "ok"; totalResults := length l;
                articles := l |},
          log_event (EvHttpGet req) (advance 1 w)).
Proof.
  cbn zeta. intros Hwindow Hreply Hcode Hstatus Harts Htotal.
  first_page E api_key search_query days_back w Hwindow.
  read_page code Hreply Hcode. rewrite Hstatus.
  cbn [py_ne_str]. rewrite bool_decide_eq_true_2 by done.
  cbn [negb lift ret py_get]. fold_get_or. rewrite Harts.
  destruct l as [|a l]; [done|]. cbn [truthy negb py_iter lift ret].
  destruct Htotal as [|Htotal]; [done|].
  cbn [page start_state Z.eqb Pos.eqb lift ret py_get all_articles app].
  fold_get_or.
  destruct (py_int_ge_number (Z.of_nat (length (a :: l))) _ Htotal)
    as [b ->].
  cbn [lift ret]. destruct b; [done|]. cbn [py_len lift ret].
  by destruct (_ <? _)%Z.
Qed.

Lemma fetch_returns_the_page_witness :
  let E := reply_env (Reply 200 (Ok (sample_page sample_articles))) in
  fetch_news_from_api E 1 (lit "key") (lit "apple") 1 empty_world
  = Some (Ok {| status := lit "ok"; totalResults := length sample_articles;
                articles := sample_articles |},
          log_event
            (EvHttpGet (first_request E (lit "key") (lit "apple") 1
                          empty_world))
            (advance 1 empty_world)).
Proof.
  cbn zeta.
  eapply (fetch_returns_the_page
            (reply_env (Reply 200 (Ok (sample_page sample_articles)))) 0
            (lit "key") (lit "apple") 1 empty_world 200
            [(lit "status", PStr (lit "ok")); (lit "totalResults", PInt 5);
             (lit "articles", PList sample_articles)]).
  - reflexivity.
  - reflexivity.
  - lia.
  - reflexivity.
  - reflexivity.
  - right. reflexivity.
Defined.

(** X15: with the window in range, articles in the page and a totalResults that is present
    but not a number (null, a string, a list), the comparison of line 184
    raises TypeError and the call fails although the articles were
    received. *)
Theorem fetch_raises_on_non_numeric_total E fuel
    (api_key search_query : str) (days_back : Z) w code items a l day :
  let req := first_request E api_key search_query days_back w in
  start_date_of E days_back w = Ok day →
  requests_get E req = Reply code (Ok (PDict items)) →
  (code < 400 ∨ 600 ≤ code)%Z →
  get_or items "status" PNone = PStr (lit "ok") →
  get_or items "articles" (PList []) = PList (a :: l) →
  is_number (get_or items "totalResults" (PInt 0)) = false →
  fetch_news_from_api E (S fuel) api_key search_query days_back w
  = Some (Raise TypeError, log_event (EvHttpGet req) (advance 1 w)).
Proof.
  cbn zeta. intros Hwindow Hreply Hcode Hstatus Harts Htotal.
  first_page E api_key search_query days_back w Hwindow.
  read_page code Hreply Hcode. rewrite Hstatus.
  cbn [py_ne_str]. rewrite bool_decide_eq_true_2 by done.
  cbn [negb lift ret py_get]. fold_get_or. rewrite Harts.
  cbn [truthy negb py_iter lift ret].
  cbn [page start_state Z.eqb Pos.eqb lift ret py_get all_articles app].
  fold_get_or. by rewrite (py_int_ge_other _ _ Htotal).
Qed.

Lemma fetch_raises_on_non_numeric_total_witness :
  let page := [(lit "status", PStr (lit "ok")); (lit "totalResults", PNone);
               (lit "articles", PList sample_articles)] in
  let E := reply_env (Reply 200 (Ok (PDict page))) in
  fetch_news_from_api E 1 (lit "key") (lit "apple") 1 empty_world
  = Some (Raise TypeError,
          log_event
            (EvHttpGet (first_request E (lit "key") (lit "apple") 1
                          empty_world))
            (advance 1 empty_world)).
Proof.
  cbn zeta.
  eapply (fetch_raises_on_non_numeric_total
            (reply_env (Reply 200 (Ok (PDict
               [(lit "status", PStr (lit "ok")); (lit "totalResults", PNone);
                (lit "articles", PList sample_articles)]))))
            0 (lit "key") (lit "apple") 1 empty_world 200
            [(lit "status", PStr (lit "ok")); (lit "totalResults", PNone);
             (lit "articles", PList sample_articles)]
            (sample_article (PStr (lit " Chips ")) "First. ")
            [sample_article PNone "Second."]).
  - reflexivity.
  - reflexivity.
  - lia.
  - reflexivity.
  - reflexivity.
  - reflexivity.
Defined.

(** ** get_api_key_from_airflow, further *)

(** X16: a key that is returned is never empty and carries no white
    space at its ends: it is the stored value stripped. *)
Theorem returned_api_key_is_usable E w api_key w' :
  get_api_key_from_airflow E w = Some (Ok api_key, w') →
  api_key ≠ [] ∧ trimmed api_key
  ∧ ∃ v, Variable_get E key_name = Ok (Some v) ∧ api_key = strip v.
Proof.
  rewrite get_api_key_from_airflow_spec.
  destruct (Variable_get E key_name) as [[v|]|]; [|done..].
  destruct (forallb is_space v) eqn:Hv; [done|]. intros [= <- _].
  split; [|split; [apply strip_trimmed|by eauto]].
  intros Hs%strip_nil_iff. congruence.
Qed.

Lemma returned_api_key_is_usable_witness :
  lit "key" ≠ [] ∧ trimmed (lit "key")
  ∧ ∃ v, Variable_get (sample_env [] None) key_name = Ok (Some v)
         ∧ lit "key" = strip v.
Proof.
  apply (returned_api_key_is_usable (sample_env [] None) empty_world
           (lit "key") (log_event (EvVariableGet key_name) empty_world)).
  reflexivity.
Defined.

(** ** save_dataframe_to_parquet, further *)

Lemma rfind_absent c (s : str) : c ∉ s → rfind c s = (-1)%Z.
Proof.
  intros Hc. apply rfind_from_none. intros j Hj.
  apply Hc. by apply list_elem_of_lookup_2 in Hj.
Qed.

Lemma os_path_dirname_plain (p : str) : slash ∉ p → os_path_dirname p = [].
Proof.
  intros Hp. unfold os_path_dirname. by rewrite rfind_absent.
Qed.

Lemma insert_keeps_files (f : gmap str dataframe) filename rows path :
  is_Some (f !! path) → is_Some (<[filename := rows]> f !! path).
Proof.
  intros Hp. destruct (decide (filename = path)) as [->|].
  - rewrite lookup_insert_eq. by eauto.
  - by rewrite lookup_insert_ne.
Qed.

Lemma save_dataframe_to_parquet_cases E df filename w :
  ∃ res w' dir,
    save_dataframe_to_parquet E df filename w = Some (res, w')
    ∧ dir = (if bool_decide (os_path_dirname filename = []) then lit "."
             else os_path_dirname filename)
    ∧ keeps_files w w'
    ∧ (∀ path, path ≠ filename → fs w' !! path = fs w !! path)
    ∧ match res with
      | Ok p =>
          p = filename ∧ is_Some (fs w' !! filename)
          ∧ trace w' = trace w ++ [EvMakedirs dir; EvToParquet filename]
      | Raise e =>
          trace w' = trace w ++ [EvMakedirs dir]
          ∨ trace w' = trace w ++ [EvMakedirs dir; EvToParquet filename]
      end.
Proof.
  unfold save_dataframe_to_parquet. setoid_rewrite try_except_reraise.
  unfold bind, call_os_makedirs, call_to_parquet, os_path_exists, keeps_files.
  destruct (os_makedirs E _).
  { do 3 eexists. split; [done|]. split; [done|]. cbn. by eauto. }
  destruct (to_parquet E df filename) as [| |e [rows|]].
  - cbn. rewrite lookup_insert_eq, bool_decide_eq_true_2 by eauto.
    do 3 eexists. split; [done|]. split; [done|]. cbn.
    rewrite lookup_insert_eq, <- app_assoc.
    split; [apply insert_keeps_files|].
    split; [by intros path Hp; rewrite lookup_insert_ne|by eauto].
  - cbn. case_bool_decide as Hex; do 3 eexists;
      (split; [done|]); (split; [done|]); cbn; rewrite <- app_assoc;
      by eauto.
  - do 3 eexists. split; [done|]. split; [done|]. cbn.
    rewrite <- app_assoc.
    split; [apply insert_keeps_files|].
    split; [by intros path Hp; rewrite lookup_insert_ne|by eauto].
  - do 3 eexists. split; [done|]. split; [done|]. cbn.
    rewrite <- app_assoc. by eauto.
Qed.

(** X18: for a file name without a slash the directory asked of
    [os.makedirs] is ".", and when that call raises nothing is written:
    the writer is not called and the files are as before. *)
Theorem save_makes_directory_first E df (filename : str) w e :
  slash ∉ filename →
  os_makedirs E (lit ".") = Some e →
  save_dataframe_to_parquet E df filename w
  = Some (Raise e, log_event (EvMakedirs (lit ".")) w).
Proof.
  intros Hplain Hdirs. unfold save_dataframe_to_parquet.
  rewrite try_except_reraise.
  unfold bind, call_os_makedirs.
  rewrite os_path_dirname_plain by done.
  rewrite bool_decide_eq_true_2 by done. by rewrite Hdirs.
Qed.

Lemma save_makes_directory_first_witness :
  save_dataframe_to_parquet
    (writer_env (Some (External (lit "PermissionError"))) Written) []
    sample_filename empty_world
  = Some (Raise (External (lit "PermissionError")),
          log_event (EvMakedirs (lit ".")) empty_world).
Proof.
  apply (save_makes_directory_first
           (writer_env (Some (External (lit "PermissionError"))) Written)).
  - vm_compute. intros H. repeat (apply elem_of_cons in H as [H|H];
                                   [discriminate|]).
    by apply elem_of_nil in H.
  - reflexivity.
Defined.

(** ** fetch_news_data, further *)

Lemma os_remove_present path w old :
  fs w !! path = Some old →
  os_remove path w
  = Some (Ok (), set_fs (delete path (fs w)) (log_event (EvRemove path) w)).
Proof. unfold os_remove. by intros ->. Qed.

(** The steps that follow the rows: write, upload, remove. *)
Lemma after_rows_cases E df (filename : str) w4 :
  let blob := lit "news_data_analysis/" ++ filename in
  ∃ res w' rest,
    (let! local_file_path := save_dataframe_to_parquet E df filename in
     let! upload_success :=
       upload_to_gcs E bucket_name blob local_file_path in
     if upload_success then
       os_remove local_file_path ;;
       ret (Some (lit "gs://" ++ bucket_name ++ lit "/" ++ blob))
     else raise UploadReportedFailure)%io w4 = Some (res, w')
    ∧ trace w' = trace w4 ++ rest
    ∧ match res with
      | Ok r =>
          r = Some (storage_uri filename)
          ∧ fs w' !! filename = None
          ∧ ∃ dir, rest = [EvMakedirs dir; EvToParquet filename;
                           EvStorageClient;
                           EvUpload bucket_name blob filename;
                           EvRemove filename]
      | Raise e =>
          keeps_files w4 w'
          ∧ Forall (fun ev => is_remove ev = false) rest
      end.
Proof.
  cbn zeta.
  destruct (save_dataframe_to_parquet_cases E df filename w4)
    as (res5 & w5 & dir & Hsave & _ & Hkeep & _ & Hres5).
  destruct res5 as [p|e].
  2:{ rewrite (bind_raise _ _ _ _ _ Hsave).
      destruct Hres5 as [Ht|Ht]; do 3 eexists;
        (split; [reflexivity|]); (split; [exact Ht|]); split; try done;
        repeat constructor. }
  destruct Hres5 as (-> & [old Hold] & Ht5).
  rewrite (bind_ok _ _ _ _ _ Hsave). unfold bind at 1.
  rewrite upload_to_gcs_spec.
  destruct (storage_Client E) as [e|].
  { do 3 eexists. split; [reflexivity|]. cbn. rewrite Ht5, <- app_assoc.
    split; [reflexivity|]. split; [done|]. repeat constructor. }
  destruct (upload_from_filename E _ _ _) as [e|].
  { do 3 eexists. split; [reflexivity|]. cbn.
    rewrite Ht5, <- !app_assoc. split; [reflexivity|]. split; [done|].
    repeat constructor. }
  unfold bind. erewrite os_remove_present by exact Hold.
  do 3 eexists. split; [reflexivity|]. cbn.
  rewrite Ht5, <- !app_assoc. split; [reflexivity|].
  split; [done|]. split; [apply lookup_delete_eq|by eauto].
Qed.

Lemma stored_key_of E v :
  Variable_get E key_name = Ok (Some v) → stored_key E = strip v.
Proof. unfold stored_key. by intros ->. Qed.

Lemma keeps_files_same w w' : fs w' = fs w → keeps_files w w'.
Proof. unfold keeps_files. by intros ->. Qed.

(** Every way a run of the driver can end. *)
Lemma fetch_news_data_cases E fuel search_query days_back w :
  let req := first_request E (stored_key E) search_query days_back w in
  ∃ res w' rest,
    fetch_news_data E (S fuel) search_query days_back w = Some (res, w')
    ∧ trace w' = trace w ++ EvVariableGet key_name :: rest
    ∧ match res with
      | Ok None => fs w' = fs w ∧ rest = [EvHttpGet req]
      | Ok (Some uri) =>
          ∃ now dir,
            let filename := run_filename search_query now in
            uri = storage_uri filename
            ∧ fs w' !! filename = None
            ∧ rest = [EvHttpGet req; EvMakedirs dir; EvToParquet filename;
                      EvStorageClient;
                      EvUpload bucket_name
                        (lit "news_data_analysis/" ++ filename) filename;
                      EvRemove filename]
      | Raise e =>
          keeps_files w w'
          ∧ Forall (fun ev => is_remove ev = false) rest
          ∧ (key_unusable E → rest = [] ∧ e = ValueError msg_key_not_found)
          ∧ (¬ key_unusable E →
             ∀ day, start_date_of E days_back w = Ok day →
                    ∃ rest', rest = EvHttpGet req :: rest')
      end.
Proof.
  cbn zeta.
  pose proof (get_api_key_from_airflow_spec E w) as Hkey.
  pose proof (key_unusable_iff E) as Hbad.
  pose proof (stored_key_of E) as Hstored.
  destruct (Variable_get E key_name) as [[v|]|e0];
    [destruct (forallb is_space v) eqn:Hv|..].
  1,3,4: (rewrite (fetch_news_data_credential_failure _ _ _ _ _ _ _ Hkey);
          exists (Raise (ValueError msg_key_not_found)); do 2 eexists;
          split; [reflexivity|]; split; [reflexivity|];
          split; [by apply keeps_files_same|]; split; [constructor|];
          split; [done|];
          intros Hno; destruct Hno; by apply Hbad).
  assert (¬ key_unusable E) as Hgood by (rewrite Hbad; congruence).
  rewrite (Hstored v eq_refl). clear Hstored Hbad.
  set (w1 := log_event (EvVariableGet key_name) w) in *.
  pose proof (fetch_news_from_api_spec E fuel (strip v) search_query days_back
                w1) as Hspec. cbn zeta in Hspec.
  change (start_date_of E days_back w1)
    with (start_date_of E days_back w) in Hspec.
  destruct (start_date_of E days_back w) as [day0|e] eqn:Hday.
  2:{ destruct Hspec as [_ Hfetch].
      unfold fetch_news_data. rewrite try_except_reraise.
      rewrite (bind_ok _ _ _ _ _ Hkey), (bind_raise _ _ _ _ _ Hfetch).
      exists (Raise e), (advance 1 w1), [].
      split; [reflexivity|]. split; [reflexivity|].
      split; [by apply keeps_files_same|]. split; [constructor|].
      split; [done|]. by intros _ day [=]. }
  destruct Hspec as (res2 & Hfetch & Hres2).
  change (first_request E (strip v) search_query days_back w1)
    with (first_request E (strip v) search_query days_back w) in *.
  set (req := first_request E (strip v) search_query days_back w) in *.
  set (w2 := log_event (EvHttpGet req) (advance 1 w1)) in *.
  assert (trace w2 = trace w ++ [EvVariableGet key_name; EvHttpGet req])
    as Ht2 by (cbn; by rewrite <- app_assoc).
  destruct res2 as [r|e].
  2:{ unfold fetch_news_data. rewrite try_except_reraise.
      rewrite (bind_ok _ _ _ _ _ Hkey), (bind_raise _ _ _ _ _ Hfetch).
      do 3 eexists. split; [reflexivity|]. split; [exact Ht2|].
      split; [by apply keeps_files_same|]. split; [repeat constructor|].
      split; [done|by eauto]. }
  destruct (articles r) as [|a arts] eqn:Harts.
  { unfold fetch_news_data. rewrite try_except_reraise.
    rewrite (bind_ok _ _ _ _ _ Hkey), (bind_ok _ _ _ _ _ Hfetch), Harts.
    do 3 eexists. split; [reflexivity|]. split; [exact Ht2|]. done. }
  pose proof (process_loop_spec E (articles r) [] w2) as Hrows.
  fold (process_articles_to_dataframe E (articles r) w2) in Hrows.
  cbn [app] in Hrows.
  destruct (stamp E (ticks w2) (omap fields_or_skip (articles r)))
    as [|row df] eqn:Hdf.
  { unfold fetch_news_data. rewrite try_except_reraise.
    rewrite (bind_ok _ _ _ _ _ Hkey), (bind_ok _ _ _ _ _ Hfetch), Harts.
    rewrite Harts in Hrows. rewrite (bind_ok _ _ _ _ _ Hrows). cbn [df_empty].
    do 3 eexists. split; [reflexivity|]. split; [exact Ht2|]. done. }
  rewrite (fetch_news_data_after_fetch _ _ _ _ _ _ _ _ _ _ _
             Hkey Hfetch Hrows ltac:(done)).
  cbn zeta.
  match goal with
  | |- context [run_filename search_query ?now] =>
      set (filename := run_filename search_query now)
  end.
  match goal with
  | |- context [bind _ _ ?w4] =>
      destruct (after_rows_cases E (row :: df) filename w4)
        as (res & w' & rest & Hrun & Ht & Hres)
  end.
  cbn zeta in Hrun. rewrite Hrun.
  exists res, w', (EvHttpGet req :: rest).
  split; [reflexivity|].
  split; [rewrite Ht; cbn; by rewrite <- !app_assoc|].
  destruct res as [r'|e].
  - destruct Hres as (-> & Hgone & dir & ->). by eauto 10.
  - destruct Hres as (Hkeep & Hrest). split; [exact Hkeep|].
    split; [by constructor|]. split; [done|by eauto].
Qed.

(** X19: a URI comes back only from a run that has written the file,
    uploaded it and removed it: the calls of the run are, in this order,
    the store lookup, the one request, makedirs, to_parquet, the storage
    client, the upload and the removal; the URI names the uploaded file
    and the local file is gone. *)
Theorem fetch_news_data_uri_means_uploaded E fuel
    (search_query : str) (days_back : Z) w uri w' :
  fetch_news_data E (S fuel) search_query days_back w
    = Some (Ok (Some uri), w') →
  ∃ now dir,
    let filename := run_filename search_query now in
    uri = storage_uri filename
    ∧ fs w' !! filename = None
    ∧ trace w'
      = trace w
          ++ [EvVariableGet key_name;
              EvHttpGet (first_request E (stored_key E) search_query
                           days_back w);
              EvMakedirs dir; EvToParquet filename; EvStorageClient;
              EvUpload bucket_name (lit "news_data_analysis/" ++ filename)
                filename;
              EvRemove filename].
Proof.
  intros Hrun.
  destruct (fetch_news_data_cases E fuel search_query days_back w)
    as (res & w'' & rest & Hrun' & Ht & Hres).
  rewrite Hrun in Hrun'. injection Hrun' as <- <-.
  destruct Hres as (now & dir & -> & Hgone & ->). by exists now, dir.
Qed.

Lemma fetch_news_data_uri_means_uploaded_witness :
  let E := sample_env sample_articles None in
  ∃ uri w',
    fetch_news_data E 1 (lit "apple") 1 empty_world = Some (Ok (Some uri), w')
    ∧ ∃ now dir,
        let filename := run_filename (lit "apple") now in
        uri = storage_uri filename
        ∧ fs w' !! filename = None
        ∧ trace w'
          = trace empty_world
              ++ [EvVariableGet key_name;
                  EvHttpGet (first_request E (stored_key E) (lit "apple") 1
                               empty_world);
                  EvMakedirs dir; EvToParquet filename; EvStorageClient;
                  EvUpload bucket_name
                    (lit "news_data_analysis/" ++ filename) filename;
                  EvRemove filename].
Proof.
  cbn zeta. do 2 eexists. split; [by vm_compute|].
  eapply (fetch_news_data_uri_means_uploaded
            (sample_env sample_articles None) 0 (lit "apple") 1 empty_world).
  by vm_compute.
Defined.

(** X20: None comes back only from a run that, after the store lookup
    and the one request, did nothing: no directory, file, storage or
    removal call, and the local files as they were. *)
Theorem fetch_news_data_none_means_untouched E fuel
    (search_query : str) (days_back : Z) w w' :
  fetch_news_data E (S fuel) search_query days_back w = Some (Ok None, w') →
  fs w' = fs w
  ∧ trace w'
    = trace w
        ++ [EvVariableGet key_name;
            EvHttpGet (first_request E (stored_key E) search_query
                         days_back w)].
Proof.
  intros Hrun.
  destruct (fetch_news_data_cases E fuel search_query days_back w)
    as (res & w'' & rest & Hrun' & Ht & Hres).
  rewrite Hrun in Hrun'. injection Hrun' as <- <-.
  by destruct Hres as (Hfs & ->).
Qed.

Lemma fetch_news_data_none_means_untouched_witness :
  let E := sample_env [] None in
  let w' := log_event
              (EvHttpGet (first_request E (stored_key E) (lit "apple") 1
                            empty_world))
              (advance 1 (log_event (EvVariableGet key_name) empty_world)) in
  fs w' = fs empty_world
  ∧ trace w'
    = trace empty_world
        ++ [EvVariableGet key_name;
            EvHttpGet (first_request E (stored_key E) (lit "apple") 1
                         empty_world)].
Proof.
  cbn zeta.
  apply (fetch_news_data_none_means_untouched (sample_env [] None) 0
           (lit "apple") 1 empty_world).
  by vm_compute.
Defined.

(** X21: a run that raises has removed nothing: no removal is among its
    calls and every local file that was there before is still there. *)
Theorem fetch_news_data_failure_removes_nothing E fuel
    (search_query : str) (days_back : Z) w e w' :
  fetch_news_data E (S fuel) search_query days_back w = Some (Raise e, w') →
  keeps_files w w'
  ∧ Forall (fun ev => is_remove ev = false) (events_since w w').
Proof.
  intros Hrun.
  destruct (fetch_news_data_cases E fuel search_query days_back w)
    as (res & w'' & rest & Hrun' & Ht & Hres).
  rewrite Hrun in Hrun'. injection Hrun' as <- <-.
  destruct Hres as (Hkeep & Hrest & _). split; [exact Hkeep|].
  unfold events_since. rewrite Ht, drop_app_length. by constructor.
Qed.

Lemma fetch_news_data_failure_removes_nothing_witness :
  let E := sample_env sample_articles (Some (External (lit "Forbidden"))) in
  ∃ w',
    fetch_news_data E 1 (lit "apple") 1 empty_world
    = Some (Raise (External (lit "Forbidden")), w')
    ∧ keeps_files empty_world w'
    ∧ Forall (fun ev => is_remove ev = false) (events_since empty_world w').
Proof.
  cbn zeta. eexists. split; [by vm_compute|].
  eapply (fetch_news_data_failure_removes_nothing
            (sample_env sample_articles (Some (External (lit "Forbidden"))))
            0 (lit "apple") 1 empty_world).
  by vm_compute.
Defined.

Lemma yesterday_in_range today :
  (date_min_ordinal < today ≤ date_max_ordinal)%Z →
  date_minus_days today 1 = Ok (today - 1)%Z.
Proof.
  unfold date_minus_days, date_min_ordinal, date_max_ordinal. intros H.
  cbn [Z.abs Z.ltb Z.compare Pos.compare Pos.compare_cont timedelta_max_days].
  destruct (Z.leb_spec 1 (today - 1)), (Z.leb_spec (today - 1) 3652059);
    try lia; done.
Qed.

(** X22: the task of the DAG calls the driver with its defaults: when
    the store has a usable key and the clock shows a date after
    0001-01-01 (so that yesterday is a date), the run sends, right after
    the lookup, one request for "technology", from yesterday to today,
    sorted by popularity, in English, 100 per page, page 1, with the
    stripped key. *)
Theorem scheduled_task_requests_technology E fuel w :
  ¬ key_unusable E →
  (date_min_ordinal < ordinal (clock E (ticks w)) ≤ date_max_ordinal)%Z →
  ∃ res w' rest,
    newsapi_data_to_gcs E (S fuel) w = Some (res, w')
    ∧ trace w'
      = trace w
          ++ [EvVariableGet key_name;
              EvHttpGet
                {| base :=
                     {| param_q := lit "technology";
                        param_from := ordinal (clock E (ticks w)) - 1;
                        param_to := ordinal (clock E (ticks w));
                        param_sortBy := lit "popularity";
                        param_apiKey := stored_key E;
                        param_language := lit "en";
                        param_pageSize := 100 |};
                   param_page := 1 |}]
          ++ rest.
Proof.
  intros Hgood Hclock%yesterday_in_range. unfold newsapi_data_to_gcs.
  destruct (fetch_news_data_cases E fuel (lit "technology") 1 w)
    as (res & w' & rest & Hrun & Ht & Hres).
  exists res, w'.
  destruct res as [[uri|]|e].
  - destruct Hres as (now & dir & _ & _ & ->).
    eexists. split; [exact Hrun|]. rewrite Ht. reflexivity.
  - destruct Hres as (_ & ->). exists []. split; [exact Hrun|]. by rewrite Ht.
  - destruct Hres as (_ & _ & _ & Hreq).
    destruct (Hreq Hgood _ Hclock) as [rest' ->].
    exists rest'. split; [exact Hrun|]. by rewrite Ht.
Qed.

Lemma scheduled_task_requests_technology_witness :
  let E := sample_env [] None in
  ∃ res w' rest,
    newsapi_data_to_gcs E 1 empty_world = Some (res, w')
    ∧ trace w'
      = trace empty_world
          ++ [EvVariableGet key_name;
              EvHttpGet
                {| base :=
                     {| param_q := lit "technology";
                        param_from :=
                          ordinal (clock E (ticks empty_world)) - 1;
                        param_to := ordinal (clock E (ticks empty_world));
                        param_sortBy := lit "popularity";
                        param_apiKey := stored_key E;
                        param_language := lit "en";
                        param_pageSize := 100 |};
                   param_page := 1 |}]
          ++ rest.
Proof.
  cbn zeta. apply (scheduled_task_requests_technology (sample_env [] None) 0).
  - intros [H|H]; vm_compute in H; discriminate.
  - vm_compute. split; [reflexivity|discriminate].
Defined.

(** X23: when the writer step raises, the driver raises the same
    exception from the world the writer left: the storage client is not
    built, nothing is uploaded, nothing is removed.  The writer may have
    left a file under the target name; every other local file is as it
    was, and every file that was there is still there. *)
Theorem fetch_news_data_stops_at_write_failure E fuel
    (search_query : str) (days_back : Z) w
    api_key w1 r w2 df w3 e w5 :
  get_api_key_from_airflow E w = Some (Ok api_key, w1) →
  fetch_news_from_api E fuel api_key search_query days_back w1
    = Some (Ok r, w2) →
  process_articles_to_dataframe E (articles r) w2 = Some (Ok df, w3) →
  df ≠ [] →
  let filename := run_filename search_query (clock E (ticks w3)) in
  save_dataframe_to_parquet E df filename (advance 1 w3)
    = Some (Raise e, w5) →
  fetch_news_data E fuel search_query days_back w = Some (Raise e, w5)
  ∧ (∀ path, path ≠ filename → fs w5 !! path = fs w3 !! path)
  ∧ keeps_files w3 w5
  ∧ ∃ dir, trace w5 = trace w3 ++ [EvMakedirs dir]
           ∨ trace w5 = trace w3 ++ [EvMakedirs dir; EvToParquet filename].
Proof.
  intros Hkey Hfetch Hrows Hdf filename Hsave.
  rewrite (fetch_news_data_after_fetch _ _ _ _ _ _ _ _ _ _ _
             Hkey Hfetch Hrows Hdf).
  cbn zeta. fold filename. rewrite (bind_raise _ _ _ _ _ Hsave).
  split; [done|].
  destruct (save_dataframe_to_parquet_cases E df filename (advance 1 w3))
    as (res & w' & dir & Hsave' & _ & Hkeep & Hother & Hres).
  rewrite Hsave in Hsave'. injection Hsave' as <- <-.
  split; [exact Hother|]. split; [exact Hkeep|]. by exists dir.
Qed.

Lemma fetch_news_data_stops_at_write_failure_witness :
  let E := writer_env None
             (WriteFailed (External (lit "ArrowInvalid")) (Some [])) in
  ∃ w3 w5,
    fetch_news_data E 1 (lit "apple") 1 empty_world
    = Some (Raise (External (lit "ArrowInvalid")), w5)
    ∧ (∀ path, path ≠ run_filename (lit "apple") (clock E (ticks w3)) →
               fs w5 !! path = fs w3 !! path)
    ∧ keeps_files w3 w5
    ∧ ∃ dir, trace w5 = trace w3 ++ [EvMakedirs dir]
             ∨ trace w5
               = trace w3
                   ++ [EvMakedirs dir;
                       EvToParquet
                         (run_filename (lit "apple") (clock E (ticks w3)))].
Proof.
  cbn zeta. do 2 eexists.
  eapply (fetch_news_data_stops_at_write_failure
            (writer_env None
               (WriteFailed (External (lit "ArrowInvalid")) (Some [])))
            1 (lit "apple") 1 empty_world).
  - reflexivity.
  - reflexivity.
  - reflexivity.
  - discriminate.
  - reflexivity.
Defined.

(** X25: when the first day of the window is not a date, because
    [days_back] reaches back to before 0001-01-01 or forward to after
    9999-12-31 (or is more than a timedelta holds), the call raises
    OverflowError before any request is sent. *)
Theorem fetch_raises_overflow_before_request E fuel
    (api_key search_query : str) (days_back : Z) w :
  (ordinal (clock E (ticks w)) ≤ days_back
   ∨ days_back < ordinal (clock E (ticks w)) - date_max_ordinal)%Z →
  fetch_news_from_api E fuel api_key search_query days_back w
  = Some (Raise OverflowError, advance 1 w)
  ∧ trace (advance 1 w) = trace w.
Proof.
  intros Hout. split; [|done]. rewrite fetch_news_from_api_unfold.
  unfold start_date_of, date_minus_days.
  destruct (_ <? _)%Z; [done|].
  unfold date_min_ordinal, date_max_ordinal in *.
  destruct (Z.leb_spec 1 (ordinal (clock E (ticks w)) - days_back)),
    (Z.leb_spec (ordinal (clock E (ticks w)) - days_back) 3652059);
    try done; lia.
Qed.

Lemma fetch_raises_overflow_before_request_witness :
  fetch_news_from_api (sample_env sample_articles None) 1 (lit "key")
    (lit "apple") 1000000 empty_world
  = Some (Raise OverflowError, advance 1 empty_world)
  ∧ trace (advance 1 empty_world) = trace empty_world.
Proof.
  apply (fetch_raises_overflow_before_request
           (sample_env sample_articles None) 1).
  left. vm_compute. discriminate.
Defined.
